(** * checkout/webhook_handler.py: the Stripe webhook handler

    A shallow embedding of [StripeWH_Handler] and the properties of its
    payment-intent reconciliation: the bounded lookup of an existing order,
    the creation path with its compensating delete, the opt-in profile
    update and the confirmation e-mail.

    The handler is Python code running against the Django ORM.  It is
    embedded as a state-and-exception monad over a [World] (the database
    tables, the clock, the outbox and an effect trace); what the handler
    cannot decide itself (the JSON decoder, the catalogue, whether the
    database accepts a row, the template engine, the mail backend, and the
    checkout view writing orders concurrently) is gathered in [Env]. *)

From Stdlib Require Import String Ascii ZArith QArith List Bool Lia.
From stdpp Require Import base option gmap strings list fin_maps.

Local Open Scope string_scope.
Local Open Scope list_scope.

(** ** Python values *)

(** Exceptions that the handler can meet. *)
Inductive exn :=
| Order_DoesNotExist
| Order_MultipleObjectsReturned
| Product_DoesNotExist
| UserProfile_DoesNotExist
| AttributeError
| ValueError
| DatabaseError
| TemplateError
| SMTPException.

Definition exn_str (e : exn) : string :=
  match e with
  | Order_DoesNotExist => "Order matching query does not exist."
  | Order_MultipleObjectsReturned => "get() returned more than one Order"
  | Product_DoesNotExist => "Product matching query does not exist."
  | UserProfile_DoesNotExist => "UserProfile matching query does not exist."
  | AttributeError => "object has no attribute"
  | ValueError => "invalid value"
  | DatabaseError => "database error"
  | TemplateError => "template error"
  | SMTPException => "mail delivery error"
  end.

Inductive result (A : Type) :=
| Ok (a : A)
| Raise (e : exn).
Arguments Ok {A} a.
Arguments Raise {A} e.

(** What [json.loads] returns.  A dict keeps its insertion order. *)
#[warnings="-register-all"]
Inductive json :=
| JNull
| JBool (b : bool)
| JInt (n : Z)
| JFloat (lexeme : string)
| JStr (s : string)
| JList (l : list json)
| JDict (d : list (string * json)).

(** [isinstance(v, int)]: [bool] is a subclass of [int]. *)
Definition isinstance_int (v : json) : bool :=
  match v with
  | JInt _ | JBool _ => true
  | _ => false
  end.

(** [v.items()]: only a dict has the method. *)
Definition items (v : json) : result (list (string * json)) :=
  match v with
  | JDict d => Ok d
  | _ => Raise AttributeError
  end.

Fixpoint assoc (k : string) (d : list (string * json)) : option json :=
  match d with
  | [] => None
  | (k', v) :: d' => if String.eqb k k' then Some v else assoc k d'
  end.

(** [v.get(k, dflt)]: only a dict has the method. *)
Definition get (v : json) (k : string) (dflt : json) : result json :=
  match v with
  | JDict d => Ok (default dflt (assoc k d))
  | _ => Raise AttributeError
  end.

(** Truthiness of a string, and Python's [x or y] where [x] is a string
    attribute that may be missing or [None]. *)
Definition truthy (s : string) : bool := negb (String.eqb s "").

Definition or_str (x : option string) (y : string) : string :=
  match x with
  | Some s => if truthy s then s else y
  | None => y
  end.

Definition or_opt (x : option string) (y : option string) : option string :=
  match x with
  | Some s => if truthy s then Some s else y
  | None => y
  end.

(** ** The event *)

Inductive meta_val :=
| MStr (s : string)
| MBool (b : bool).

(** [intent.metadata]: the four keys the handler reads.  Stripe metadata
    values are strings; the opt-in flag is also accepted as a boolean. *)
Module Metadata.
Record t := {
  bag : option string;
  save_info : option meta_val;
  username : option string;
  email : option string;
}.
End Metadata.

Module BillingDetails.
Record t := { email : option string }.
End BillingDetails.

(** [intent.shipping]; the address is a dict whose values may be [None]. *)
Module Shipping.
Record t := {
  name : option string;
  phone : option string;
  address : option (gmap string (option string));
}.
End Shipping.

Module Charge.
Record t := {
  billing_details : option BillingDetails.t;
  amount : option Z;
}.
End Charge.

(** [event.data.object].  A field is [None] when the attribute is missing
    or, for those read under [or], [None]; an amount is an integer or
    missing.  [charges] stands for [intent.charges.data]. *)
Module Intent.
Record t := {
  id : option string;
  metadata : option Metadata.t;
  charges : option (list Charge.t);
  billing_details : option BillingDetails.t;
  amount_received : option Z;
  shipping : option Shipping.t;
}.
End Intent.

Record Event := {
  type : string;
  object : Intent.t;
}.

Record HttpResponse := {
  content : string;
  status : nat;
}.

(** ** The tables *)

(** Modelled from the spec: the account behind a profile, of which the
    handler reads the e-mail address; the user model is not part of the
    sources at hand. *)
Module User.
Record t := {
  username : string;
  email : string;
}.
End User.

(** Modelled from the spec: the CustomerProfile of [profiles.models], with
    the default address and contact fields that the handler overwrites. *)
Module UserProfile.
Record t := {
  user : User.t;
  default_phone_number : option string;
  default_country : option string;
  default_postcode : option string;
  default_town_or_city : option string;
  default_street_address1 : option string;
  default_street_address2 : option string;
  default_county : option string;
}.
End UserProfile.

(** Modelled from the spec: a catalogue item of [products.models]. *)
Module Product.
Record t := {
  id : string;
  name : string;
}.
End Product.

(** Modelled from the spec: the Order of [checkout.models], with the
    fields that the handler looks up and writes.  [user_profile] is the
    foreign key: the username of the profile.  [grand_total] is a decimal
    with two places. *)
Module Order.
Record t := {
  full_name : string;
  user_profile : option string;
  email : string;
  phone_number : string;
  country : string;
  postcode : string;
  town_or_city : string;
  street_address1 : string;
  street_address2 : string;
  county : string;
  grand_total : Q;
  original_bag : string;
  stripe_pid : option string;
}.
End Order.

(** Modelled from the spec: the OrderLineItem of [checkout.models].
    [order] is the foreign key: the primary key of the order.  The
    quantity is whatever the snapshot holds. *)
Module OrderLineItem.
Record t := {
  order : nat;
  product : Product.t;
  quantity : json;
  product_size : option string;
}.
End OrderLineItem.

Record Mail := {
  subject : string;
  body : string;
  from_email : string;
  recipient_list : list string;
}.

(** What the handler does to the outside, in the order it does it. *)
Inductive Effect :=
| EProfileSave (username : string) (p : UserProfile.t)
| EOrderGet (at_clock : nat)
| ESleep (secs : nat)
| EOrderCreate (pk : nat)
| ELineItemCreate (li : OrderLineItem.t)
| EOrderDelete (pk : nat)
| ESendMail (m : Mail)
| EPrint (msg : string).

Record World := {
  orders : gmap nat Order.t;
  lineitems : list OrderLineItem.t;
  profiles : gmap string UserProfile.t;
  clock : nat;
  outbox : list Mail;
  trace : list Effect;
}.

Definition set_orders (f : gmap nat Order.t → gmap nat Order.t) (w : World) : World :=
  {| orders := f (orders w); lineitems := lineitems w; profiles := profiles w;
     clock := clock w; outbox := outbox w; trace := trace w |}.

Definition set_lineitems (f : list OrderLineItem.t → list OrderLineItem.t) (w : World) : World :=
  {| orders := orders w; lineitems := f (lineitems w); profiles := profiles w;
     clock := clock w; outbox := outbox w; trace := trace w |}.

Definition set_profiles (f : gmap string UserProfile.t → gmap string UserProfile.t) (w : World) : World :=
  {| orders := orders w; lineitems := lineitems w; profiles := f (profiles w);
     clock := clock w; outbox := outbox w; trace := trace w |}.

Definition set_clock (f : nat → nat) (w : World) : World :=
  {| orders := orders w; lineitems := lineitems w; profiles := profiles w;
     clock := f (clock w); outbox := outbox w; trace := trace w |}.

Definition set_outbox (f : list Mail → list Mail) (w : World) : World :=
  {| orders := orders w; lineitems := lineitems w; profiles := profiles w;
     clock := clock w; outbox := f (outbox w); trace := trace w |}.

Definition emit (e : Effect) (w : World) : World :=
  {| orders := orders w; lineitems := lineitems w; profiles := profiles w;
     clock := clock w; outbox := outbox w; trace := (trace w ++ [e]) |}.

(** ** The collaborators *)

Record Env := {
  (** [json.loads]; [None] is [json.JSONDecodeError]. *)
  json_loads : string → option json;
  (** [Product.objects.get(id=...)]. *)
  Product_objects_get : string → result Product.t;
  (** The orders that the checkout view commits during the time unit that
      starts at the given clock value. *)
  arrivals : nat → list Order.t;
  (** Whether the database accepts the row. *)
  Order_accepted : Order.t → bool;
  OrderLineItem_accepted : OrderLineItem.t → bool;
  (** The template engine; an error is an exception. *)
  render_to_string : string → nat * Order.t → result string;
  (** The mail backend: [false] is a delivery error. *)
  mail_delivered : Mail → bool;
  DEFAULT_FROM_EMAIL : string;
}.

(** ** The monad: state of the world, and exceptions *)

Definition M (A : Type) : Type := World → result A * World.

#[global] Instance M_ret : MRet M := λ A a w, (Ok a, w).

#[global] Instance M_bind : MBind M := λ A B f m w,
  match m w with
  | (Ok a, w') => f a w'
  | (Raise e, w') => (Raise e, w')
  end.

Definition raise {A} (e : exn) : M A := λ w, (Raise e, w).

Definition lift {A} (r : result A) : M A := λ w, (r, w).

Definition tell (e : Effect) : M unit := λ w, (Ok tt, emit e w).

(** [try: m except <those of handles>: h].  The state reached when the
    exception was raised is kept. *)
Definition try_except {A} (m : M A) (handles : exn → bool) (h : exn → M A) : M A := λ w,
  match m w with
  | (Ok a, w') => (Ok a, w')
  | (Raise e, w') => if handles e then h e w' else (Raise e, w')
  end.

(** The exception as a value: what [except Exception as e] binds. *)
Definition attempt {A} (m : M A) : M (result A) := λ w,
  match m w with
  | (r, w') => (Ok r, w')
  end.

Fixpoint for_each {A} (f : A → M unit) (l : list A) : M unit :=
  match l with
  | [] => mret tt
  | x :: l' => f x ;; for_each f l'
  end.

(** ** Case-insensitive comparison *)

Definition lower_ascii (c : ascii) : ascii :=
  let n := nat_of_ascii c in
  if (65 <=? n)%nat && (n <=? 90)%nat then ascii_of_nat (n + 32) else c.

Fixpoint lower (s : string) : string :=
  match s with
  | EmptyString => EmptyString
  | String c s' => String (lower_ascii c) (lower s')
  end.

(** The [__iexact] lookup on a text column. *)
Definition iexact (stored value : string) : bool :=
  String.eqb (lower stored) (lower value).

(** The keyword arguments of the handler's [Order.objects.get]. *)
Record OrderLookup := {
  full_name__iexact : string;
  email__iexact : string;
  phone_number__iexact : string;
  country__iexact : string;
  postcode__iexact : string;
  town_or_city__iexact : string;
  street_address1__iexact : string;
  street_address2__iexact : string;
  county__iexact : string;
  grand_total__exact : Q;
  original_bag__exact : string;
  stripe_pid__exact : option string;
}.

Definition option_string_eqb (a b : option string) : bool :=
  match a, b with
  | Some x, Some y => String.eqb x y
  | None, None => true
  | _, _ => false
  end.

Definition satisfies (q : OrderLookup) (o : Order.t) : bool :=
  iexact (Order.full_name o) (full_name__iexact q)
  && iexact (Order.email o) (email__iexact q)
  && iexact (Order.phone_number o) (phone_number__iexact q)
  && iexact (Order.country o) (country__iexact q)
  && iexact (Order.postcode o) (postcode__iexact q)
  && iexact (Order.town_or_city o) (town_or_city__iexact q)
  && iexact (Order.street_address1 o) (street_address1__iexact q)
  && iexact (Order.street_address2 o) (street_address2__iexact q)
  && iexact (Order.county o) (county__iexact q)
  && Qeq_bool (Order.grand_total o) (grand_total__exact q)
  && String.eqb (Order.original_bag o) (original_bag__exact q)
  && option_string_eqb (Order.stripe_pid o) (stripe_pid__exact q).

(** ** The ORM *)

(** The models of [checkout.models], [products.models] and
    [profiles.models] are not part of the sources at hand; their managers
    are modelled here.  The order table maps a primary key to its row. *)

(** Modelled from the spec: the rows that the composite key of a lookup
    selects. *)
Definition rows_satisfying (q : OrderLookup) (tbl : gmap nat Order.t) : list (nat * Order.t) :=
  List.filter (λ r, satisfies q r.2) (map_to_list tbl).

(** Modelled from the spec: [findOrder], as the manager's [get]: the row
    when exactly one satisfies the lookup, [DoesNotExist] when none does,
    [MultipleObjectsReturned] otherwise. *)
Definition lookup_in (q : OrderLookup) (tbl : gmap nat Order.t) : result (nat * Order.t) :=
  match rows_satisfying q tbl with
  | [] => Raise Order_DoesNotExist
  | [r] => Ok r
  | _ :: _ :: _ => Raise Order_MultipleObjectsReturned
  end.

(** Modelled from the spec: [createOrder] on a table with generated
    primary keys. *)
Definition commit (tbl : gmap nat Order.t) (o : Order.t) : gmap nat Order.t :=
  <[fresh (dom tbl) := o]> tbl.

(** Modelled from the spec: [deleteOrder]; the rows of the line-item table
    that belong to the order go with it. *)
Definition discard (pk : nat) (w : World) : World :=
  set_lineitems (filter (λ li, OrderLineItem.order li ≠ pk))
    (set_orders (delete pk) w).

Section Handler.
Context (E : Env).

(** The order table after the checkout view has had one more time unit,
    and after [n] of them. *)
Definition tick (t : nat) (tbl : gmap nat Order.t) : gmap nat Order.t :=
  foldl commit tbl (arrivals E t).

Fixpoint visible (tbl : gmap nat Order.t) (t n : nat) : gmap nat Order.t :=
  match n with
  | 0 => tbl
  | S n' => visible (tick t tbl) (S t) n'
  end.

(** [Order.objects.get(...)] on the table as it is now. *)
Definition Order_objects_get (q : OrderLookup) : M (nat * Order.t) := λ w,
  (lookup_in q (orders w), emit (EOrderGet (clock w)) w).

(** [Order.objects.create(...)]: the row under a new key, unless the
    database refuses it. *)
Definition Order_objects_create (o : Order.t) : M (nat * Order.t) := λ w,
  if Order_accepted E o then
    let pk := fresh (dom (orders w)) in
    (Ok (pk, o), emit (EOrderCreate pk) (set_orders (λ tbl, commit tbl o) w))
  else (Raise DatabaseError, w).

(** [order.delete()]. *)
Definition Order_delete (order : nat * Order.t) : M unit := λ w,
  (Ok tt, emit (EOrderDelete order.1) (discard order.1 w)).

(** Modelled from the spec: [createLineItem], a row at the end of the
    line-item table unless the database refuses it. *)
Definition OrderLineItem_objects_create (li : OrderLineItem.t) : M unit := λ w,
  if OrderLineItem_accepted E li then
    (Ok tt, emit (ELineItemCreate li) (set_lineitems (λ l, l ++ [li]) w))
  else (Raise DatabaseError, w).

(** Modelled from the spec: [findProfile], by username. *)
Definition UserProfile_objects_get (user__username : string) : M UserProfile.t := λ w,
  match profiles w !! user__username with
  | Some p => (Ok p, w)
  | None => (Raise UserProfile_DoesNotExist, w)
  end.

(** Modelled from the spec: [saveProfile], the [profile.save()] of the
    profile fetched under that username. *)
Definition UserProfile_save (user__username : string) (p : UserProfile.t) : M unit := λ w,
  (Ok tt, emit (EProfileSave user__username p) (set_profiles (insert user__username p) w)).

(** [time.sleep(secs)]: the clock moves on and the checkout view commits
    what it commits in that time. *)
Definition time_sleep (secs : nat) : M unit := λ w,
  (Ok tt, emit (ESleep secs)
            (set_clock (λ t, t + secs) (set_orders (λ tbl, visible tbl (clock w) secs) w))).

(** [send_mail(subject, body, from_email, recipient_list)]. *)
Definition send_mail (subject body from_email : string) (recipient_list : list string) : M unit := λ w,
  let m := {| subject := subject; body := body; from_email := from_email;
              recipient_list := recipient_list |} in
  if mail_delivered E m then (Ok tt, emit (ESendMail m) (set_outbox (λ l, l ++ [m]) w))
  else (Raise SMTPException, w).

Definition print (msg : string) : M unit := tell (EPrint msg).
End Handler.

(** ** class StripeWH_Handler *)

Module StripeWH_Handler.
Section Methods.
Context (E : Env).

Definition subject_template : string :=
  "checkout/confirmation_emails/confirmation_email_subject.txt".
Definition body_template : string :=
  "checkout/confirmation_emails/confirmation_email_body.txt".

(** [order.user_profile.user]: following the foreign key of an order
    that has none is an [AttributeError] on [None]. *)
Definition order_user_profile_user (order : nat * Order.t) : M User.t :=
  match Order.user_profile order.2 with
  | None => raise AttributeError
  | Some u => p ← UserProfile_objects_get u; mret (UserProfile.user p)
  end.

(** [order.email or email_to_send or getattr(order.user_profile.user,
    'email', None)]: the third operand is evaluated only when the first
    two are falsy. *)
Definition cust_email (order : nat * Order.t) (email_to_send : option string) : M string :=
  if truthy (Order.email order.2) then mret (Order.email order.2)
  else match email_to_send with
       | Some e =>
           if truthy e then mret e
           else u ← order_user_profile_user order; mret (User.email u)
       | None => u ← order_user_profile_user order; mret (User.email u)
       end.

Definition _send_confirmation_email (order : nat * Order.t)
    (email_to_send : option string) : M unit :=
  try_except
    (cust_email ← cust_email order email_to_send;
     subject ← lift (render_to_string E subject_template order);
     body ← lift (render_to_string E body_template order);
     send_mail E subject body (DEFAULT_FROM_EMAIL E) [cust_email])
    (λ _, true)
    (λ e, print ("Error sending confirmation email: " +:+ exn_str e)).

Definition handle_event (event : Event) : M HttpResponse :=
  mret {| content := "Unhandled webhook received: " +:+ type event; status := 200 |}.

(** *** The locals of [handle_payment_intent_succeeded] *)

Definition pid (intent : Intent.t) : option string := Intent.id intent.

Definition bag (intent : Intent.t) : string :=
  or_str (Intent.metadata intent ≫= Metadata.bag) "{}".

(** [metadata.get("save_info") in ['true', True]]. *)
Definition save_info (intent : Intent.t) : bool :=
  match Intent.metadata intent ≫= Metadata.save_info with
  | Some (MStr s) => String.eqb s "true"
  | Some (MBool b) => b
  | None => false
  end.

Definition username (intent : Intent.t) : string :=
  or_str (Intent.metadata intent ≫= Metadata.username) "AnonymousUser".

Definition email_to_send (intent : Intent.t) : option string :=
  or_opt (Intent.metadata intent ≫= Metadata.email) None.

(** [round(amount / 100, 2)] of an integer amount, as the exact decimal. *)
Definition round2_div100 (amount : Z) : Q := amount # 100.

Definition billing_details (intent : Intent.t) : option BillingDetails.t :=
  match Intent.charges intent with
  | Some (charge :: _) => Charge.billing_details charge
  | _ => Intent.billing_details intent
  end.

Definition grand_total (intent : Intent.t) : Q :=
  match Intent.charges intent with
  | Some (charge :: _) => round2_div100 (default 0%Z (Charge.amount charge))
  | _ => round2_div100 (default 0%Z (Intent.amount_received intent))
  end.

Definition shipping_details (intent : Intent.t) : option Shipping.t :=
  Intent.shipping intent.

(** The address after the loop that replaces every empty string by
    [None]. *)
Definition clean (v : option string) : option string :=
  match v with
  | Some s => if String.eqb s "" then None else Some s
  | None => None
  end.

Definition address (intent : Intent.t) : gmap string (option string) :=
  clean <$> default ∅ (shipping_details intent ≫= Shipping.address).

(** [address.get(k, "")], to be used under [or]. *)
Definition address_get (intent : Intent.t) (k : string) : option string :=
  mjoin (address intent !! k).

(** *** The profile update *)

Definition update_profile (intent : Intent.t) (profile : UserProfile.t) : UserProfile.t :=
  {| UserProfile.user := UserProfile.user profile;
     UserProfile.default_phone_number :=
       or_opt (shipping_details intent ≫= Shipping.phone)
              (UserProfile.default_phone_number profile);
     UserProfile.default_country :=
       or_opt (address_get intent "country") (UserProfile.default_country profile);
     UserProfile.default_postcode :=
       or_opt (address_get intent "postal_code") (UserProfile.default_postcode profile);
     UserProfile.default_town_or_city :=
       or_opt (address_get intent "city") (UserProfile.default_town_or_city profile);
     UserProfile.default_street_address1 :=
       or_opt (address_get intent "line1") (UserProfile.default_street_address1 profile);
     UserProfile.default_street_address2 :=
       or_opt (address_get intent "line2") (UserProfile.default_street_address2 profile);
     UserProfile.default_county :=
       or_opt (address_get intent "state") (UserProfile.default_county profile) |}.

Definition is_UserProfile_DoesNotExist (e : exn) : bool :=
  match e with UserProfile_DoesNotExist => true | _ => false end.

(** Lines 80-94.  The value is the foreign key that the new order will
    carry in [user_profile]. *)
Definition profile_step (intent : Intent.t) : M (option string) :=
  if negb (String.eqb (username intent) "AnonymousUser") then
    try_except
      (profile ← UserProfile_objects_get (username intent);
       if save_info intent then
         UserProfile_save (username intent) (update_profile intent profile);;
         mret (Some (username intent))
       else mret (Some (username intent)))
      is_UserProfile_DoesNotExist
      (λ _, mret None)
  else mret None.

(** *** The lookup *)

Definition order_lookup (intent : Intent.t) : OrderLookup :=
  {| full_name__iexact := or_str (shipping_details intent ≫= Shipping.name) "";
     email__iexact := or_str (billing_details intent ≫= BillingDetails.email) "";
     phone_number__iexact := or_str (shipping_details intent ≫= Shipping.phone) "";
     country__iexact := or_str (address_get intent "country") "";
     postcode__iexact := or_str (address_get intent "postal_code") "";
     town_or_city__iexact := or_str (address_get intent "city") "";
     street_address1__iexact := or_str (address_get intent "line1") "";
     street_address2__iexact := or_str (address_get intent "line2") "";
     county__iexact := or_str (address_get intent "state") "";
     grand_total__exact := grand_total intent;
     original_bag__exact := bag intent;
     stripe_pid__exact := pid intent |}.

Definition is_Order_DoesNotExist (e : exn) : bool :=
  match e with Order_DoesNotExist => true | _ => false end.

(** Lines 99-120: [while attempt <= 5], counted down; [remaining] is
    [6 - attempt].  [Some order] is [order_exists = True]. *)
Fixpoint find_order (remaining : nat) (q : OrderLookup) : M (option (nat * Order.t)) :=
  match remaining with
  | 0 => mret None
  | S remaining' =>
      try_except
        (order ← Order_objects_get q; mret (Some order))
        is_Order_DoesNotExist
        (λ _, time_sleep E 1;; find_order remaining' q)
  end.

(** *** The creation path *)

Definition new_order (intent : Intent.t) (profile : option string) : Order.t :=
  {| Order.full_name := or_str (shipping_details intent ≫= Shipping.name) "";
     Order.user_profile := profile;
     Order.email := or_str (billing_details intent ≫= BillingDetails.email) "";
     Order.phone_number := or_str (shipping_details intent ≫= Shipping.phone) "";
     Order.country := or_str (address_get intent "country") "";
     Order.postcode := or_str (address_get intent "postal_code") "";
     Order.town_or_city := or_str (address_get intent "city") "";
     Order.street_address1 := or_str (address_get intent "line1") "";
     Order.street_address2 := or_str (address_get intent "line2") "";
     Order.county := or_str (address_get intent "state") "";
     Order.grand_total := grand_total intent;
     Order.original_bag := bag intent;
     Order.stripe_pid := pid intent |}.

(** Lines 148-151. *)
Definition bag_data (bag : string) : json :=
  match json_loads E bag with
  | Some v => v
  | None => JDict []
  end.

Definition is_Product_DoesNotExist (e : exn) : bool :=
  match e with Product_DoesNotExist => true | _ => false end.

(** Lines 154-171: the body of the loop over [bag_data.items()]. *)
Definition line_items_for (order : nat * Order.t) (entry : string * json) : M unit :=
  let '(item_id, item_data) := entry in
  try_except
    (product ← lift (Product_objects_get E item_id);
     if isinstance_int item_data then
       OrderLineItem_objects_create E
         {| OrderLineItem.order := order.1; OrderLineItem.product := product;
            OrderLineItem.quantity := item_data; OrderLineItem.product_size := None |}
     else
       by_size ← lift (get item_data "items_by_size" (JDict []));
       sizes ← lift (items by_size);
       for_each (λ '(size, quantity),
         OrderLineItem_objects_create E
           {| OrderLineItem.order := order.1; OrderLineItem.product := product;
              OrderLineItem.quantity := quantity;
              OrderLineItem.product_size := Some size |}) sizes)
    is_Product_DoesNotExist
    (λ _, print ("Product not found for id " +:+ item_id +:+ ", skipping line item.")).

(** Lines 147-171: what follows the creation of the header inside the
    [try]. *)
Definition populate (order : nat * Order.t) (bag : string) : M unit :=
  entries ← lift (items (bag_data bag));
  for_each (line_items_for order) entries.

Definition handle_payment_intent_succeeded (event : Event) : M HttpResponse :=
  let intent := object event in
  profile ← profile_step intent;
  found ← find_order 5 (order_lookup intent);
  match found with
  | Some order =>
      _send_confirmation_email order None;;
      mret {| content := "Webhook received: " +:+ type event
                +:+ " | SUCCESS: Verified order already in database";
              status := 200 |}
  | None =>
      (* [order] is still [None] here; it is bound once [create] returns *)
      created ← attempt (Order_objects_create E (new_order intent profile));
      match created with
      | Raise e =>
          mret {| content := "Webhook received: " +:+ type event
                    +:+ " | ERROR creating order: " +:+ exn_str e;
                  status := 500 |}
      | Ok order =>
          populated ← attempt (populate order (bag intent));
          match populated with
          | Raise e =>
              Order_delete order;;
              mret {| content := "Webhook received: " +:+ type event
                        +:+ " | ERROR creating order: " +:+ exn_str e;
                      status := 500 |}
          | Ok _ =>
              _send_confirmation_email order (email_to_send intent);;
              mret {| content := "Webhook received: " +:+ type event
                        +:+ " | SUCCESS: Created order in webhook";
                      status := 200 |}
          end
      end
  end.

Definition handle_payment_intent_payment_failed (event : Event) : M HttpResponse :=
  mret {| content := "Webhook received: " +:+ type event; status := 200 |}.
End Methods.
End StripeWH_Handler.

(** ** A JSON decoder

    An instance of [json.loads] for the documents that the checkout view
    writes into the metadata: objects, arrays, strings with the
    one-character escapes, numbers and the three literals.  It is what the
    examples run on; the properties below hold for every decoder. *)

Module Json.
Definition dquote : ascii := "034"%char.

Definition is_ws (c : ascii) : bool :=
  let n := nat_of_ascii c in
  (n =? 32)%nat || (n =? 9)%nat || (n =? 10)%nat || (n =? 13)%nat.

Definition is_digit (c : ascii) : bool :=
  let n := nat_of_ascii c in
  (48 <=? n)%nat && (n <=? 57)%nat.

Fixpoint skip_ws (s : string) : string :=
  match s with
  | String c s' => if is_ws c then skip_ws s' else s
  | EmptyString => s
  end.

Definition unescape (c : ascii) : option ascii :=
  if Ascii.eqb c dquote then Some dquote
  else if Ascii.eqb c "\"%char then Some "\"%char
  else if Ascii.eqb c "/"%char then Some "/"%char
  else if Ascii.eqb c "b"%char then Some "008"%char
  else if Ascii.eqb c "f"%char then Some "012"%char
  else if Ascii.eqb c "n"%char then Some "010"%char
  else if Ascii.eqb c "r"%char then Some "013"%char
  else if Ascii.eqb c "t"%char then Some "009"%char
  else None.

(** The characters up to the closing quote, and what follows it. *)
Fixpoint string_body (s : string) : option (string * string) :=
  match s with
  | EmptyString => None
  | String c s' =>
      if Ascii.eqb c dquote then Some (EmptyString, s')
      else if (nat_of_ascii c <? 32)%nat then None
      else if Ascii.eqb c "\"%char then
        match s' with
        | String e s'' =>
            match unescape e, string_body s'' with
            | Some c', Some (b, r) => Some (String c' b, r)
            | _, _ => None
            end
        | EmptyString => None
        end
      else match string_body s' with
           | Some (b, r) => Some (String c b, r)
           | None => None
           end
  end.

Fixpoint digits (acc : Z) (s : string) : Z * string :=
  match s with
  | String c s' =>
      if is_digit c then digits (10 * acc + Z.of_nat (nat_of_ascii c - 48)) s'
      else (acc, s)
  | EmptyString => (acc, s)
  end.

(** One digit at least. *)
Definition digits1 (s : string) : option (Z * string) :=
  match s with
  | String c _ => if is_digit c then Some (digits 0 s) else None
  | EmptyString => None
  end.

(** The integer part: no leading zero. *)
Definition int_part (s : string) : option (Z * string) :=
  match s with
  | String "0" s' => Some (0%Z, s')
  | _ => digits1 s
  end.

Definition frac_part (s : string) : option (bool * string) :=
  match s with
  | String "." s' =>
      match digits1 s' with
      | Some (_, r) => Some (true, r)
      | None => None
      end
  | _ => Some (false, s)
  end.

Definition exp_part (s : string) : option (bool * string) :=
  match s with
  | String c s' =>
      if Ascii.eqb c "e"%char || Ascii.eqb c "E"%char then
        let s'' := match s' with
                   | String "+" r | String "-" r => r
                   | _ => s'
                   end in
        match digits1 s'' with
        | Some (_, r) => Some (true, r)
        | None => None
        end
      else Some (false, s)
  | EmptyString => Some (false, s)
  end.

(** A number: an [int] unless it has a fraction or an exponent. *)
Definition number (s : string) : option (json * string) :=
  let '(neg, s1) := match s with
                    | String "-" r => (true, r)
                    | _ => (false, s)
                    end in
  match int_part s1 with
  | Some (n, r1) =>
      match frac_part r1 with
      | Some (has_frac, r2) =>
          match exp_part r2 with
          | Some (has_exp, r3) =>
              if has_frac || has_exp
              then Some (JFloat (String.substring 0 (String.length s - String.length r3) s), r3)
              else Some (JInt (if neg then - n else n), r3)
          | None => None
          end
      | None => None
      end
  | None => None
  end.

(** A later value for a key replaces the earlier one in place. *)
Fixpoint dict_set (k : string) (v : json) (d : list (string * json)) : list (string * json) :=
  match d with
  | [] => [(k, v)]
  | (k', v') :: d' => if String.eqb k k' then (k, v) :: d' else (k', v') :: dict_set k v d'
  end.

Definition literal (lit : string) (v : json) (s : string) : option (json * string) :=
  if String.prefix lit s
  then Some (v, String.substring (String.length lit) (String.length s - String.length lit) s)
  else None.

Fixpoint value (fuel : nat) (s : string) : option (json * string) :=
  match fuel with
  | 0 => None
  | S fuel' =>
      let fix members (n : nat) (acc : list (string * json)) (s : string)
          : option (json * string) :=
        match n with
        | 0 => None
        | S n' =>
            match skip_ws s with
            | String c r =>
                if Ascii.eqb c dquote then
                  match string_body r with
                  | Some (k, r1) =>
                      match skip_ws r1 with
                      | String ":" r2 =>
                          match value fuel' r2 with
                          | Some (v, r3) =>
                              match skip_ws r3 with
                              | String "," r4 => members n' (dict_set k v acc) r4
                              | String "}" r4 => Some (JDict (dict_set k v acc), r4)
                              | _ => None
                              end
                          | None => None
                          end
                      | _ => None
                      end
                  | None => None
                  end
                else None
            | EmptyString => None
            end
        end in
      let fix elements (n : nat) (acc : list json) (s : string)
          : option (json * string) :=
        match n with
        | 0 => None
        | S n' =>
            match value fuel' s with
            | Some (v, r) =>
                match skip_ws r with
                | String "," r' => elements n' (acc ++ [v]) r'
                | String "]" r' => Some (JList (acc ++ [v]), r')
                | _ => None
                end
            | None => None
            end
        end in
      match skip_ws s with
      | String "{" r =>
          match skip_ws r with
          | String "}" r' => Some (JDict [], r')
          | _ => members fuel' [] r
          end
      | String "[" r =>
          match skip_ws r with
          | String "]" r' => Some (JList [], r')
          | _ => elements fuel' [] r
          end
      | String c r as s0 =>
          if Ascii.eqb c dquote then
            match string_body r with
            | Some (b, r') => Some (JStr b, r')
            | None => None
            end
          else if is_digit c || Ascii.eqb c "-"%char then number s0
          else
            match literal "true" (JBool true) s0 with
            | Some x => Some x
            | None =>
                match literal "false" (JBool false) s0 with
                | Some x => Some x
                | None => literal "null" JNull s0
                end
            end
      | EmptyString => None
      end
  end.

(** The fuel is one more than the length of the document: a nested value
    starts at least one character after the value around it. *)
Definition loads (s : string) : option json :=
  match value (S (String.length s)) s with
  | Some (v, r) =>
      match skip_ws r with
      | EmptyString => Some v
      | _ => None
      end
  | None => None
  end.

(** A string literal of a document. *)
Definition quoted (s : string) : string := String dquote s +:+ String dquote EmptyString.
End Json.

(** ** Outcomes

    The four answers of the handler, as the dispatcher sees them. *)

Definition AlreadyRecorded (event : Event) : HttpResponse :=
  {| content := "Webhook received: " +:+ type event
       +:+ " | SUCCESS: Verified order already in database";
     status := 200 |}.

Definition Created (event : Event) : HttpResponse :=
  {| content := "Webhook received: " +:+ type event
       +:+ " | SUCCESS: Created order in webhook";
     status := 200 |}.

Definition CreationFailed (event : Event) (detail : exn) : HttpResponse :=
  {| content := "Webhook received: " +:+ type event
       +:+ " | ERROR creating order: " +:+ exn_str detail;
     status := 500 |}.

Definition Unhandled (event : Event) : HttpResponse :=
  {| content := "Unhandled webhook received: " +:+ type event; status := 200 |}.

(** ** Vocabulary of the properties *)

(** The effects of [k] lookups that miss, the first at clock [t]. *)
Fixpoint misses (t k : nat) : list Effect :=
  match k with
  | 0 => []
  | S k' => EOrderGet t :: ESleep 1 :: misses (S t) k'
  end.

(** The world after [k] lookups that miss. *)
Definition after_misses (E : Env) (k : nat) (w : World) : World :=
  {| orders := visible E (orders w) (clock w) k;
     lineitems := lineitems w;
     profiles := profiles w;
     clock := clock w + k;
     outbox := outbox w;
     trace := trace w ++ misses (clock w) k |}.

(** The lookup of attempt [j + 1] raises [Order.DoesNotExist]. *)
Definition attempt_misses (E : Env) (event : Event) (w : World) (j : nat) : Prop :=
  lookup_in (StripeWH_Handler.order_lookup (object event))
            (visible E (orders w) (clock w) j) = Raise Order_DoesNotExist.

(** The lookup of attempt [j + 1] returns the row [r]. *)
Definition attempt_finds (E : Env) (event : Event) (w : World) (j : nat)
    (r : nat * Order.t) : Prop :=
  lookup_in (StripeWH_Handler.order_lookup (object event))
            (visible E (orders w) (clock w) j) = Ok r.

(** The profile that a new order is linked to: the one of the event's
    username, when there is one. *)
Definition linked_profile (intent : Intent.t) (w : World) : option string :=
  if String.eqb (StripeWH_Handler.username intent) "AnonymousUser" then None
  else match profiles w !! StripeWH_Handler.username intent with
       | Some _ => Some (StripeWH_Handler.username intent)
       | None => None
       end.

(** The world after lines 80-94. *)
Definition after_profile (intent : Intent.t) (w : World) : World :=
  if String.eqb (StripeWH_Handler.username intent) "AnonymousUser" then w
  else match profiles w !! StripeWH_Handler.username intent with
       | Some p =>
           if StripeWH_Handler.save_info intent then
             emit (EProfileSave (StripeWH_Handler.username intent)
                     (StripeWH_Handler.update_profile intent p))
               (set_profiles (insert (StripeWH_Handler.username intent)
                                (StripeWH_Handler.update_profile intent p)) w)
           else w
       | None => w
       end.

(** What sending the confirmation does to the world: one message in the
    outbox, or one line printed; the tables and the clock stay. *)
Definition notified (w w' : World) : Prop :=
  orders w' = orders w ∧ lineitems w' = lineitems w
  ∧ profiles w' = profiles w ∧ clock w' = clock w
  ∧ ((∃ m, outbox w' = (outbox w ++ [m]) ∧ trace w' = (trace w ++ [ESendMail m]))
     ∨ (∃ msg, outbox w' = outbox w ∧ trace w' = (trace w ++ [EPrint msg]))).

(** Two worlds with the same tables and the same clock; the outbox and the
    trace may differ. *)
Definition same_tables (w1 w2 : World) : Prop :=
  orders w1 = orders w2 ∧ lineitems w1 = lineitems w2
  ∧ profiles w1 = profiles w2 ∧ clock w1 = clock w2.

(** Two computations that, from related worlds, end with the same result in
    related worlds. *)
Definition related (R : World → World → Prop) {A} (m1 m2 : M A) : Prop :=
  ∀ w1 w2, R w1 w2 → (m1 w1).1 = (m2 w2).1 ∧ R (m1 w1).2 (m2 w2).2.

(** A computation that moves the world along [I] only. *)
Definition keeps (I : World → World → Prop) {A} (m : M A) : Prop :=
  ∀ w, I w (m w).2.

(** The line-item loop for an order writes nothing but line items of that
    order, at the end of their table. *)
Definition appends_line_items_of (pk : nat) (w w' : World) : Prop :=
  orders w' = orders w ∧ profiles w' = profiles w
  ∧ clock w' = clock w ∧ outbox w' = outbox w
  ∧ (∃ new, lineitems w' = lineitems w ++ new
            ∧ Forall (λ li, OrderLineItem.order li = pk) new)
  ∧ ∃ tr, trace w' = trace w ++ tr.

(** Two worlds with the same line-item table. *)
Definition same_lineitems (w1 w2 : World) : Prop := lineitems w1 = lineitems w2.

(** The order table when the five lookups have missed, and the order that
    the handler then creates, under its primary key. *)
Definition table_after_misses (E : Env) (w : World) : gmap nat Order.t :=
  visible E (orders w) (clock w) 5.

Definition candidate (E : Env) (event : Event) (w : World) : nat * Order.t :=
  (fresh (dom (table_after_misses E w)),
   StripeWH_Handler.new_order (object event) (linked_profile (object event) w)).

(** The profile table stays and the trace grows at its end. *)
Definition keeps_profiles (w w' : World) : Prop :=
  profiles w' = profiles w ∧ ∃ tr, trace w' = trace w ++ tr.

(** The line item that the loop writes for a product of an order. *)
Definition line_item (order : nat * Order.t) (product : Product.t) (quantity : json)
    (size : option string) : OrderLineItem.t :=
  {| OrderLineItem.order := order.1; OrderLineItem.product := product;
     OrderLineItem.quantity := quantity; OrderLineItem.product_size := size |}.

Definition sized_line_item (order : nat * Order.t) (product : Product.t)
    (pair : string * json) : OrderLineItem.t :=
  line_item order product pair.2 (Some pair.1).

(** The world with the rows [new] appended to the line-item table. *)
Definition with_line_items (new : list OrderLineItem.t) (w : World) : World :=
  {| orders := orders w; lineitems := lineitems w ++ new; profiles := profiles w;
     clock := clock w; outbox := outbox w;
     trace := trace w ++ (ELineItemCreate <$> new) |}.

(** What the event itself supplies, before the handler cleans it: the value
    under a key of the shipping address, and the telephone number. *)
Definition supplied_address (intent : Intent.t) (key : string) : option string :=
  (Intent.shipping intent ≫= Shipping.address) ≫= (λ a, mjoin (a !! key)).

Definition supplied_phone (intent : Intent.t) : option string :=
  Intent.shipping intent ≫= Shipping.phone.

(** The default address fields of a profile, with the key of the shipping
    address that each is updated from. *)
Definition profile_address_fields : list (string * (UserProfile.t → option string)) :=
  [("country", UserProfile.default_country);
   ("postal_code", UserProfile.default_postcode);
   ("city", UserProfile.default_town_or_city);
   ("line1", UserProfile.default_street_address1);
   ("line2", UserProfile.default_street_address2);
   ("state", UserProfile.default_county)].

(** The same collaborators with another notifier: template engine, mail
    backend and sender address. *)
Definition with_notifier (E : Env) (render : string → nat * Order.t → result string)
    (delivered : Mail → bool) (sender : string) : Env :=
  {| json_loads := json_loads E;
     Product_objects_get := Product_objects_get E;
     arrivals := arrivals E;
     Order_accepted := Order_accepted E;
     OrderLineItem_accepted := OrderLineItem_accepted E;
     render_to_string := render;
     mail_delivered := delivered;
     DEFAULT_FROM_EMAIL := sender |}.

(** A notifier that always throws: no template renders, no mail leaves. *)
Definition with_failing_notifier (E : Env) : Env :=
  with_notifier E (λ _ _, Raise TemplateError) (λ _, false) (DEFAULT_FROM_EMAIL E).

(** ** A shop to run the handler in *)

Module Demo.
Definition jacket : Product.t := {| Product.id := "12"; Product.name := "Jacket" |}.
Definition mug : Product.t := {| Product.id := "7"; Product.name := "Mug" |}.
Definition catalogue : list Product.t := [jacket; mug].

Fixpoint all_digits (s : string) : bool :=
  match s with
  | EmptyString => true
  | String c s' => Json.is_digit c && all_digits s'
  end.

(** The primary key of a product is a number: another string is a
    [ValueError], a number that no product has is [DoesNotExist]. *)
Definition Product_get (item_id : string) : result Product.t :=
  if truthy item_id && all_digits item_id then
    match List.find (λ p, String.eqb (Product.id p) item_id) catalogue with
    | Some p => Ok p
    | None => Raise Product_DoesNotExist
    end
  else Raise ValueError.

(** A line item needs a whole number for its quantity and a size label
    of two characters at most. *)
Definition line_item_ok (li : OrderLineItem.t) : bool :=
  match OrderLineItem.quantity li with
  | JInt _ | JBool _ => true
  | _ => false
  end
  && match OrderLineItem.product_size li with
     | Some s => (String.length s <=? 2)%nat
     | None => true
     end.

(** An order needs the payment intent it belongs to. *)
Definition order_ok (o : Order.t) : bool :=
  match Order.stripe_pid o with
  | Some _ => true
  | None => false
  end.

Definition env (arrivals : nat → list Order.t) : Env :=
  {| json_loads := Json.loads;
     Product_objects_get := Product_get;
     arrivals := arrivals;
     Order_accepted := order_ok;
     OrderLineItem_accepted := line_item_ok;
     render_to_string := λ template order, Ok (template +:+ " for " +:+ Order.full_name order.2);
     mail_delivered := λ m, forallb truthy (recipient_list m);
     DEFAULT_FROM_EMAIL := "shop@example.com" |}.

Definition quiet : nat → list Order.t := λ _, [].

Definition alice : UserProfile.t :=
  {| UserProfile.user := {| User.username := "alice"; User.email := "alice@example.com" |};
     UserProfile.default_phone_number := Some "0113 000000";
     UserProfile.default_country := Some "GB";
     UserProfile.default_postcode := Some "LS1 1AA";
     UserProfile.default_town_or_city := Some "Leeds";
     UserProfile.default_street_address1 := Some "1 High Street";
     UserProfile.default_street_address2 := None;
     UserProfile.default_county := Some "West Yorkshire" |}.

(** The shipping address of the event: no second line, an empty
    postcode. *)
Definition shipping_address : gmap string (option string) :=
  list_to_map [("line1", Some "5 Mill Lane"); ("line2", None); ("city", Some "York");
               ("state", Some "North Yorkshire"); ("postal_code", Some "");
               ("country", Some "GB")].

Definition intent (bag : string) (billing_email override : option string) : Intent.t :=
  {| Intent.id := Some "pi_123";
     Intent.metadata :=
       Some {| Metadata.bag := Some bag;
               Metadata.save_info := Some (MStr "true");
               Metadata.username := Some "alice";
               Metadata.email := override |};
     Intent.charges :=
       Some [{| Charge.billing_details := Some {| BillingDetails.email := billing_email |};
                Charge.amount := Some 4999%Z |}];
     Intent.billing_details := None;
     Intent.amount_received := Some 4999%Z;
     Intent.shipping :=
       Some {| Shipping.name := Some "Alice Smith";
               Shipping.phone := Some "0113 111111";
               Shipping.address := Some shipping_address |} |}.

Definition event (bag : string) (billing_email override : option string) : Event :=
  {| type := "payment_intent.succeeded"; object := intent bag billing_email override |}.

(** The same order as the checkout view stores it. *)
Definition checkout_order (bag : string) (email : string) (profile : option string) : Order.t :=
  {| Order.full_name := "Alice SMITH";
     Order.user_profile := profile;
     Order.email := email;
     Order.phone_number := "0113 111111";
     Order.country := "GB";
     Order.postcode := "";
     Order.town_or_city := "york";
     Order.street_address1 := "5 Mill Lane";
     Order.street_address2 := "";
     Order.county := "North Yorkshire";
     Order.grand_total := 49.99%Q;
     Order.original_bag := bag;
     Order.stripe_pid := Some "pi_123" |}.

Definition world : World :=
  {| orders := ∅; lineitems := []; profiles := {[ "alice" := alice ]};
     clock := 0; outbox := []; trace := [] |}.

(** The cart snapshots. *)
Definition bag_plain : string := "{" +:+ Json.quoted "12" +:+ ": 3}".
Definition bag_sizes : string :=
  "{" +:+ Json.quoted "12" +:+ ": {" +:+ Json.quoted "items_by_size" +:+ ": {"
    +:+ Json.quoted "M" +:+ ": 2, " +:+ Json.quoted "L" +:+ ": 1}}}".
Definition bag_unknown : string := "{" +:+ Json.quoted "99" +:+ ": 1}".
Definition bag_null_quantity : string :=
  "{" +:+ Json.quoted "12" +:+ ": {" +:+ Json.quoted "items_by_size" +:+ ": {"
    +:+ Json.quoted "M" +:+ ": 2, " +:+ Json.quoted "L" +:+ ": null}}}".
Definition bag_text_quantity : string :=
  "{" +:+ Json.quoted "12" +:+ ": " +:+ Json.quoted "3" +:+ "}".
Definition bag_malformed : string := "{not json".

(** The checkout view commits its order during the second time unit. *)
Definition late_checkout : nat → list Order.t :=
  λ t, if (t =? 1)%nat then [checkout_order bag_plain "alice@example.com" (Some "alice")]
       else [].

(** The checkout view commits its order during the fifth time unit, after
    the last lookup. *)
Definition checkout_after_last_lookup : nat → list Order.t :=
  λ t, if (t =? 4)%nat then [checkout_order bag_plain "alice@example.com" (Some "alice")]
       else [].

(** An event without a billing e-mail, whose metadata name the address
    to write to; it is delivered twice. *)
Definition event_with_override : Event :=
  event bag_plain None (Some "buyer@example.com").

Definition first_delivery : result HttpResponse * World :=
  StripeWH_Handler.handle_payment_intent_succeeded (env quiet) event_with_override world.

Definition second_delivery : result HttpResponse * World :=
  StripeWH_Handler.handle_payment_intent_succeeded (env quiet) event_with_override
    first_delivery.2.
End Demo.

(** ** The paths through [handle_payment_intent_succeeded] *)

(** The world in which the line-item loop starts: after the profile step,
    five lookups that miss, and the creation of the header. *)
Definition header_world (E : Env) (event : Event) (w : World) : World :=
  emit (EOrderCreate (candidate E event w).1)
    (set_orders (λ tbl, commit tbl (candidate E event w).2)
       (after_misses E 5 (after_profile (object event) w))).

(** The world in which the lookup of attempt [k + 1] has just been made. *)
Definition lookup_world (E : Env) (event : Event) (w : World) (k : nat) : World :=
  emit (EOrderGet (clock (after_misses E k (after_profile (object event) w))))
    (after_misses E k (after_profile (object event) w)).

(** A run of the handler from [w]: what it returns and the world it leaves,
    path by path. *)
Inductive Run (E : Env) (event : Event) (w : World) : result HttpResponse → World → Prop :=
| run_found k r :
    k < 5 →
    (∀ j, j < k → attempt_misses E event w j) →
    attempt_finds E event w k r →
    Run E event w (Ok (AlreadyRecorded event))
      (StripeWH_Handler._send_confirmation_email E r None (lookup_world E event w k)).2
| run_raised k e :
    k < 5 →
    (∀ j, j < k → attempt_misses E event w j) →
    lookup_in (StripeWH_Handler.order_lookup (object event))
      (visible E (orders w) (clock w) k) = Raise e →
    StripeWH_Handler.is_Order_DoesNotExist e = false →
    Run E event w (Raise e) (lookup_world E event w k)
| run_rejected :
    (∀ j, j < 5 → attempt_misses E event w j) →
    Order_accepted E (candidate E event w).2 = false →
    Run E event w (Ok (CreationFailed event DatabaseError))
      (after_misses E 5 (after_profile (object event) w))
| run_failed e wp :
    (∀ j, j < 5 → attempt_misses E event w j) →
    Order_accepted E (candidate E event w).2 = true →
    StripeWH_Handler.populate E (candidate E event w)
      (StripeWH_Handler.bag (object event)) (header_world E event w) = (Raise e, wp) →
    Run E event w (Ok (CreationFailed event e))
      (emit (EOrderDelete (candidate E event w).1) (discard (candidate E event w).1 wp))
| run_created wp :
    (∀ j, j < 5 → attempt_misses E event w j) →
    Order_accepted E (candidate E event w).2 = true →
    StripeWH_Handler.populate E (candidate E event w)
      (StripeWH_Handler.bag (object event)) (header_world E event w) = (Ok tt, wp) →
    Run E event w (Ok (Created event))
      (StripeWH_Handler._send_confirmation_email E (candidate E event w)
         (StripeWH_Handler.email_to_send (object event)) wp).2.

(** Every line item belongs to an order of the table. *)
Definition line_items_have_orders (w : World) : Prop :=
  ∀ li, li ∈ lineitems w → is_Some (orders w !! OrderLineItem.order li).

(** The intent with another shipping address. *)
Definition set_address (a : gmap string (option string)) (intent : Intent.t) : Intent.t :=
  {| Intent.id := Intent.id intent;
     Intent.metadata := Intent.metadata intent;
     Intent.charges := Intent.charges intent;
     Intent.billing_details := Intent.billing_details intent;
     Intent.amount_received := Intent.amount_received intent;
     Intent.shipping :=
       Some {| Shipping.name := Intent.shipping intent ≫= Shipping.name;
               Shipping.phone := Intent.shipping intent ≫= Shipping.phone;
               Shipping.address := Some a |} |}.

(** The message that [_send_confirmation_email] hands to [send_mail]. *)
Definition confirmation (E : Env) (subject body recipient : string) : Mail :=
  {| subject := subject; body := body; from_email := DEFAULT_FROM_EMAIL E;
     recipient_list := [recipient] |}.

(** The world with one more message sent. *)
Definition with_mail (m : Mail) (w : World) : World :=
  emit (ESendMail m) (set_outbox (λ l, l ++ [m]) w).

(** ** More of the shop *)

Module Cases.
(** An order of another customer, with its line item. *)
Definition earlier_order : Order.t :=
  {| Order.full_name := "Bob Jones";
     Order.user_profile := None;
     Order.email := "bob@example.com";
     Order.phone_number := "0113 222222";
     Order.country := "GB";
     Order.postcode := "LS2 2BB";
     Order.town_or_city := "Leeds";
     Order.street_address1 := "2 Low Road";
     Order.street_address2 := "";
     Order.county := "";
     Order.grand_total := 12.50%Q;
     Order.original_bag := "{" +:+ Json.quoted "7" +:+ ": 1}";
     Order.stripe_pid := Some "pi_001" |}.

Definition earlier_line_item : OrderLineItem.t :=
  {| OrderLineItem.order := 0; OrderLineItem.product := Demo.mug;
     OrderLineItem.quantity := JInt 1; OrderLineItem.product_size := None |}.

Definition stocked_world : World :=
  {| orders := {[ 0 := earlier_order ]}; lineitems := [earlier_line_item];
     profiles := {[ "alice" := Demo.alice ]};
     clock := 0; outbox := []; trace := [] |}.

Definition plain_event : Event :=
  Demo.event Demo.bag_plain (Some "alice@example.com") None.
End Cases.

Module Mails.
(** An order as the handler stores it for an event without a billing
    e-mail, with and without a profile. *)
Definition order_of (email : string) (profile : option string) : nat * Order.t :=
  (0, Demo.checkout_order Demo.bag_plain email profile).

Definition subject_text (order : nat * Order.t) : string :=
  StripeWH_Handler.subject_template +:+ " for " +:+ Order.full_name order.2.

Definition body_text (order : nat * Order.t) : string :=
  StripeWH_Handler.body_template +:+ " for " +:+ Order.full_name order.2.
End Mails.

(** The keys of the shipping address that the handler reads. *)
Definition address_keys : list string :=
  ["country"; "postal_code"; "city"; "line1"; "line2"; "state"].

Module Guests.
(** An event of a customer who is not logged in, and one without the
    identifier of the payment intent. *)
Definition guest_intent : Intent.t :=
  {| Intent.id := Some "pi_456";
     Intent.metadata :=
       Some {| Metadata.bag := Some Demo.bag_plain;
               Metadata.save_info := Some (MStr "true");
               Metadata.username := None;
               Metadata.email := None |};
     Intent.charges := None;
     Intent.billing_details := Some {| BillingDetails.email := Some "guest@example.com" |};
     Intent.amount_received := Some 4999%Z;
     Intent.shipping :=
       Some {| Shipping.name := Some "Greta Guest";
               Shipping.phone := None;
               Shipping.address := Some Demo.shipping_address |} |}.

Definition guest_event : Event :=
  {| type := "payment_intent.succeeded"; object := guest_intent |}.

Definition intent_without_id : Intent.t :=
  {| Intent.id := None;
     Intent.metadata := Intent.metadata guest_intent;
     Intent.charges := None;
     Intent.billing_details := Intent.billing_details guest_intent;
     Intent.amount_received := Some 4999%Z;
     Intent.shipping := Intent.shipping guest_intent |}.

Definition event_without_id : Event :=
  {| type := "payment_intent.succeeded"; object := intent_without_id |}.

(** The address of the shop's event with its empty postcode left out and
    its missing second line given as empty. *)
Definition other_address : gmap string (option string) :=
  list_to_map [("line1", Some "5 Mill Lane"); ("line2", Some ""); ("city", Some "York");
               ("state", Some "North Yorkshire"); ("country", Some "GB");
               ("floor", Some "3")].

(** A snapshot that is JSON and no object. *)
Definition bag_list : string := "[12, 3]".
End Guests.

(** ** The line items of a snapshot *)

(** The line items that an entry of the snapshot stands for, in the words
    of the specification: for a catalogue item that exists, one line item
    with the quantity and no size when the value is a plain quantity, one
    line item for each pair of a size and a quantity when it is a mapping
    by size; none for a catalogue item that is not found. *)
Definition entry_line_items (E : Env) (order : nat * Order.t) (entry : string * json)
    : list OrderLineItem.t :=
  match Product_objects_get E entry.1 with
  | Ok product =>
      match entry.2 with
      | JInt n => [line_item order product (JInt n) None]
      | JDict d =>
          match assoc "items_by_size" d with
          | Some (JDict sizes) => sized_line_item order product <$> sizes
          | _ => []
          end
      | _ => []
      end
  | Raise _ => []
  end.

Definition snapshot_line_items (E : Env) (order : nat * Order.t)
    (entries : list (string * json)) : list OrderLineItem.t :=
  concat (entry_line_items E order <$> entries).

(** An entry that the creation path takes: its catalogue item exists, its
    value is a plain quantity or a mapping by size, and the database
    accepts its line items; or its catalogue item is not found. *)
Definition entry_taken (E : Env) (order : nat * Order.t) (entry : string * json) : Prop :=
  match Product_objects_get E entry.1 with
  | Ok product =>
      match entry.2 with
      | JInt n => OrderLineItem_accepted E (line_item order product (JInt n) None) = true
      | JDict d =>
          match assoc "items_by_size" d with
          | Some (JDict sizes) =>
              Forall (λ pair, OrderLineItem_accepted E (sized_line_item order product pair)
                              = true) sizes
          | Some _ => False
          | None => True
          end
      | _ => False
      end
  | Raise e => e = Product_DoesNotExist
  end.

Module Carts.
(** A snapshot with a mapping by size and a plain quantity, and one whose
    only id is no number. *)
Definition bag_mixed : string :=
  "{" +:+ Json.quoted "12" +:+ ": {" +:+ Json.quoted "items_by_size" +:+ ": {"
    +:+ Json.quoted "M" +:+ ": 2, " +:+ Json.quoted "L" +:+ ": 1}}, "
    +:+ Json.quoted "7" +:+ ": 3}".

Definition mixed_event : Event :=
  Demo.event bag_mixed (Some "alice@example.com") None.

Definition sizes_event : Event :=
  Demo.event Demo.bag_sizes (Some "alice@example.com") None.

Definition bag_text_id : string := "{" +:+ Json.quoted "abc" +:+ ": 1}".

Definition text_id_event : Event :=
  Demo.event bag_text_id (Some "alice@example.com") None.

End Carts.

(** * Properties *)

Import StripeWH_Handler.

(** ** Running the monad *)

Lemma run_bind {A B} (m : M A) (f : A → M B) w :
  (m ≫= f) w = match m w with
               | (Ok a, w') => f a w'
               | (Raise e, w') => (Raise e, w')
               end.
Proof. reflexivity. Qed.

Lemma run_ret {A} (a : A) w : (mret a : M A) w = (Ok a, w).
Proof. reflexivity. Qed.

Lemma World_eta w :
  {| orders := orders w; lineitems := lineitems w; profiles := profiles w;
     clock := clock w; outbox := outbox w; trace := trace w |} = w.
Proof. by destruct w. Qed.

Ltac unfold_world :=
  unfold emit, set_orders, set_lineitems, set_profiles, set_clock, set_outbox,
    discard; simpl.

(** ** The lookup loop *)

Section Lookup.
Context (E : Env).

Lemma after_misses_0 w : after_misses E 0 w = w.
Proof.
  unfold after_misses. simpl. rewrite Nat.add_0_r, app_nil_r. apply World_eta.
Qed.

(** One miss: the lookup, then the sleep. *)
Lemma find_order_miss n q w :
  lookup_in q (orders w) = Raise Order_DoesNotExist →
  find_order E (S n) q w = find_order E n q (after_misses E 1 w).
Proof.
  intros Hmiss. simpl. unfold try_except. rewrite run_bind.
  unfold Order_objects_get. rewrite Hmiss. simpl.
  rewrite run_bind. unfold time_sleep, after_misses. unfold_world.
  by rewrite <- app_assoc.
Qed.

Lemma after_misses_S k w :
  after_misses E k (after_misses E 1 w) = after_misses E (S k) w.
Proof.
  unfold after_misses. simpl. f_equal.
  - by rewrite Nat.add_1_r.
  - lia.
  - rewrite <- app_assoc. simpl. by rewrite Nat.add_1_r.
Qed.

Lemma find_order_misses k : ∀ n q w,
  (∀ j, j < k → lookup_in q (visible E (orders w) (clock w) j) = Raise Order_DoesNotExist) →
  find_order E (k + n) q w = find_order E n q (after_misses E k w).
Proof.
  induction k as [|k IH]; intros n q w Hmiss.
  - by rewrite after_misses_0.
  - change (S k + n) with (S (k + n)).
    rewrite find_order_miss by (apply (Hmiss 0); lia).
    rewrite IH, after_misses_S; [done|].
    intros j Hj. simpl. rewrite Nat.add_1_r. apply (Hmiss (S j)). lia.
Qed.


Lemma find_order_exhausted q w :
  find_order E 0 q w = (Ok None, w).
Proof. reflexivity. Qed.
End Lookup.

(** ** The profile step *)

Lemma profile_step_run intent w :
  profile_step intent w = (Ok (linked_profile intent w), after_profile intent w).
Proof.
  unfold profile_step, linked_profile, after_profile.
  destruct (String.eqb (username intent) "AnonymousUser"); simpl; [done|].
  unfold try_except. rewrite run_bind. unfold UserProfile_objects_get.
  destruct (profiles w !! username intent) as [p|]; simpl; [|done].
  by destruct (save_info intent).
Qed.

Lemma after_profile_orders intent w : orders (after_profile intent w) = orders w.
Proof.
  unfold after_profile.
  destruct (String.eqb _ _); [done|].
  destruct (profiles w !! _); [|done]. by destruct (save_info intent).
Qed.

Lemma after_profile_lineitems intent w : lineitems (after_profile intent w) = lineitems w.
Proof.
  unfold after_profile.
  destruct (String.eqb _ _); [done|].
  destruct (profiles w !! _); [|done]. by destruct (save_info intent).
Qed.

Lemma after_profile_clock intent w : clock (after_profile intent w) = clock w.
Proof.
  unfold after_profile.
  destruct (String.eqb _ _); [done|].
  destruct (profiles w !! _); [|done]. by destruct (save_info intent).
Qed.

Lemma after_profile_outbox intent w : outbox (after_profile intent w) = outbox w.
Proof.
  unfold after_profile.
  destruct (String.eqb _ _); [done|].
  destruct (profiles w !! _); [|done]. by destruct (save_info intent).
Qed.


(** ** The confirmation e-mail *)

Section Email.
Context (E : Env).

(** Working out the recipient reads the profile table and writes
    nothing. *)
Lemma cust_email_pure order override w :
  (cust_email order override w).2 = w.
Proof.
  unfold cust_email, order_user_profile_user.
  destruct (truthy (Order.email order.2)); [done|].
  destruct override as [e|]; [destruct (truthy e); [done|]|];
    rewrite run_bind;
    (destruct (Order.user_profile order.2) as [u|]; [|done]);
    rewrite run_bind; unfold UserProfile_objects_get;
    by destruct (profiles w !! u).
Qed.

(** Lines 20-39 return normally whatever happens inside the [try]. *)
Lemma send_confirmation_email_total order override w :
  ∃ w', _send_confirmation_email E order override w = (Ok tt, w') ∧ notified w w'.
Proof.
  unfold _send_confirmation_email, try_except. rewrite run_bind.
  pose proof (cust_email_pure order override w) as Hpure.
  destruct (cust_email order override w) as [[to|e] w0]; simpl in Hpure; subst w0.
  - rewrite run_bind. unfold lift at 1.
    destruct (render_to_string E subject_template order) as [subj|e].
    + rewrite run_bind. unfold lift at 1.
      destruct (render_to_string E body_template order) as [bd|e].
      * unfold send_mail.
        destruct (mail_delivered E _).
        -- eexists. split; [done|]. unfold notified. unfold_world.
           repeat split; try done. left. by eexists.
        -- eexists. split; [done|]. unfold notified. unfold_world.
           repeat split; try done. right. by eexists.
      * eexists. split; [done|]. unfold notified. unfold_world.
        repeat split; try done. right. by eexists.
    + eexists. split; [done|]. unfold notified. unfold_world.
      repeat split; try done. right. by eexists.
  - eexists. split; [done|]. unfold notified. unfold_world.
    repeat split; try done. right. by eexists.
Qed.
End Email.

(** ** Relating two runs *)

Section Related.
Context (R : World → World → Prop).

Lemma related_ret {A} (a : A) : related R (mret a) (mret a).
Proof. by intros w1 w2 HR. Qed.

Lemma related_raise {A} (e : exn) : related R (raise e : M A) (raise e).
Proof. by intros w1 w2 HR. Qed.

Lemma related_lift {A} (r : result A) : related R (lift r) (lift r).
Proof. by intros w1 w2 HR. Qed.

Lemma related_bind {A B} (m1 m2 : M A) (f1 f2 : A → M B) :
  related R m1 m2 → (∀ a, related R (f1 a) (f2 a)) →
  related R (m1 ≫= f1) (m2 ≫= f2).
Proof.
  intros Hm Hf w1 w2 HR. rewrite !run_bind.
  destruct (Hm w1 w2 HR) as [Hres Hw].
  destruct (m1 w1) as [[a1|e1] w1'], (m2 w2) as [[a2|e2] w2'];
    simpl in *; try discriminate.
  - injection Hres as ->. by apply Hf.
  - by injection Hres as ->.
Qed.

Lemma related_try_except {A} (m1 m2 : M A) handles (h1 h2 : exn → M A) :
  related R m1 m2 → (∀ e, related R (h1 e) (h2 e)) →
  related R (try_except m1 handles h1) (try_except m2 handles h2).
Proof.
  intros Hm Hh w1 w2 HR. unfold try_except.
  destruct (Hm w1 w2 HR) as [Hres Hw].
  destruct (m1 w1) as [[a1|e1] w1'], (m2 w2) as [[a2|e2] w2'];
    simpl in *; try discriminate.
  - done.
  - injection Hres as ->. destruct (handles e2); [by apply Hh|done].
Qed.

Lemma related_attempt {A} (m1 m2 : M A) :
  related R m1 m2 → related R (attempt m1) (attempt m2).
Proof.
  intros Hm w1 w2 HR. unfold attempt.
  destruct (Hm w1 w2 HR) as [Hres Hw].
  destruct (m1 w1) as [r1 w1'], (m2 w2) as [r2 w2']; simpl in *. by subst.
Qed.

Lemma related_for_each {A} (f1 f2 : A → M unit) (l : list A) :
  (∀ x, related R (f1 x) (f2 x)) → related R (for_each f1 l) (for_each f2 l).
Proof.
  intros Hf. induction l as [|x l IH]; simpl.
  - apply related_ret.
  - apply related_bind; [apply Hf|by intros _].
Qed.
End Related.

(** ** Framing one run *)

Section Keeps.
Context (I : World → World → Prop) `{!Reflexive I, !Transitive I}.

Lemma keeps_ret {A} (a : A) : keeps I (mret a).
Proof. intros w. simpl. reflexivity. Qed.

Lemma keeps_raise {A} (e : exn) : keeps I (raise e : M A).
Proof. intros w. simpl. reflexivity. Qed.

Lemma keeps_lift {A} (r : result A) : keeps I (lift r).
Proof. intros w. simpl. reflexivity. Qed.

Lemma keeps_bind {A B} (m : M A) (f : A → M B) :
  keeps I m → (∀ a, keeps I (f a)) → keeps I (m ≫= f).
Proof.
  intros Hm Hf w. rewrite run_bind. specialize (Hm w).
  destruct (m w) as [[a|e] w']; simpl in *; [|done].
  etrans; [exact Hm|apply Hf].
Qed.

Lemma keeps_try_except {A} (m : M A) handles (h : exn → M A) :
  keeps I m → (∀ e, keeps I (h e)) → keeps I (try_except m handles h).
Proof.
  intros Hm Hh w. unfold try_except. specialize (Hm w).
  destruct (m w) as [[a|e] w']; simpl in *; [done|].
  destruct (handles e); [|done]. etrans; [exact Hm|apply Hh].
Qed.

Lemma keeps_attempt {A} (m : M A) : keeps I m → keeps I (attempt m).
Proof.
  intros Hm w. unfold attempt. specialize (Hm w). by destruct (m w).
Qed.

Lemma keeps_for_each {A} (f : A → M unit) (l : list A) :
  (∀ x, keeps I (f x)) → keeps I (for_each f l).
Proof.
  intros Hf. induction l as [|x l IH]; simpl.
  - apply keeps_ret.
  - apply keeps_bind; [apply Hf|by intros _].
Qed.
End Keeps.

#[local] Instance appends_line_items_of_refl pk : Reflexive (appends_line_items_of pk).
Proof.
  intros w. unfold appends_line_items_of. repeat split; try done.
  - exists []. by rewrite app_nil_r.
  - exists []. by rewrite app_nil_r.
Qed.

#[local] Instance appends_line_items_of_trans pk : Transitive (appends_line_items_of pk).
Proof.
  intros w1 w2 w3 (Ho & Hp & Hc & Hb & (n1 & Hl & Hn) & (t1 & Ht))
    (Ho' & Hp' & Hc' & Hb' & (n2 & Hl' & Hn') & (t2 & Ht')).
  unfold appends_line_items_of. repeat split; try congruence.
  - exists (n1 ++ n2). split; [|by apply Forall_app].
    by rewrite Hl', Hl, app_assoc.
  - exists (t1 ++ t2). by rewrite Ht', Ht, app_assoc.
Qed.

#[local] Instance keeps_profiles_refl : Reflexive keeps_profiles.
Proof. intros w. split; [done|]. exists []. by rewrite app_nil_r. Qed.

#[local] Instance keeps_profiles_trans : Transitive keeps_profiles.
Proof.
  intros w1 w2 w3 [Hp (t1 & Ht)] [Hp' (t2 & Ht')]. split; [congruence|].
  exists (t1 ++ t2). by rewrite Ht', Ht, app_assoc.
Qed.

(** ** The line-item loop in two runs *)

Section RelatedLoop.
Context (R : World → World → Prop) (E1 E2 : Env).
Context (Hjson : json_loads E1 = json_loads E2).
Context (Hprod : Product_objects_get E1 = Product_objects_get E2).
Context (Hli : OrderLineItem_accepted E1 = OrderLineItem_accepted E2).
Context (Remit : ∀ e1 e2 w1 w2, R w1 w2 → R (emit e1 w1) (emit e2 w2)).
Context (Rappend : ∀ li w1 w2, R w1 w2 →
           R (set_lineitems (λ l, l ++ [li]) w1) (set_lineitems (λ l, l ++ [li]) w2)).

Lemma create_line_item_related li :
  related R (OrderLineItem_objects_create E1 li) (OrderLineItem_objects_create E2 li).
Proof.
  intros w1 w2 HR. unfold OrderLineItem_objects_create. rewrite Hli.
  destruct (OrderLineItem_accepted E2 li); [|done].
  split; [done|]. cbn [snd]. by apply Remit, Rappend.
Qed.

Lemma print_related msg : related R (print msg) (print msg).
Proof. intros w1 w2 HR. split; [done|]. by apply Remit. Qed.

Lemma line_items_for_related order entry :
  related R (line_items_for E1 order entry) (line_items_for E2 order entry).
Proof.
  destruct entry as [item_id item_data]. unfold line_items_for.
  apply related_try_except; [|intros e; apply print_related].
  rewrite Hprod. apply related_bind; [apply related_lift|]. intros product.
  destruct (isinstance_int item_data); [apply create_line_item_related|].
  apply related_bind; [apply related_lift|]. intros by_size.
  apply related_bind; [apply related_lift|]. intros sizes.
  apply related_for_each. intros [size quantity]. apply create_line_item_related.
Qed.

Lemma populate_related order bag :
  related R (populate E1 order bag) (populate E2 order bag).
Proof.
  unfold populate, bag_data. rewrite Hjson.
  apply related_bind; [apply related_lift|]. intros entries.
  apply related_for_each. intros entry. apply line_items_for_related.
Qed.
End RelatedLoop.

(** The loop depends on the world for nothing but the table it appends
    to. *)
Lemma line_items_for_same_lineitems E order entry :
  related same_lineitems (line_items_for E order entry) (line_items_for E order entry).
Proof.
  apply line_items_for_related; try done.
  intros li w1 w2 HR. unfold same_lineitems in *. simpl. by rewrite HR.
Qed.

Lemma populate_same_lineitems E order bag :
  related same_lineitems (populate E order bag) (populate E order bag).
Proof.
  apply populate_related; try done.
  intros li w1 w2 HR. unfold same_lineitems in *. simpl. by rewrite HR.
Qed.

(** ** The line-item loop *)

Section LineItems.
Context (E : Env).

Lemma for_each_app {A} (f : A → M unit) l1 l2 w :
  for_each f (l1 ++ l2) w = (for_each f l1;; for_each f l2) w.
Proof.
  revert w. induction l1 as [|x l1 IH]; intros w; simpl.
  - done.
  - rewrite !run_bind. destruct (f x w) as [[[]|e] w']; [|done].
    rewrite IH. by rewrite run_bind.
Qed.

Lemma create_line_item_keeps li :
  keeps (appends_line_items_of (OrderLineItem.order li)) (OrderLineItem_objects_create E li).
Proof.
  intros w. unfold OrderLineItem_objects_create.
  destruct (OrderLineItem_accepted E li); [|reflexivity].
  unfold appends_line_items_of. unfold_world. repeat split; try done.
  - exists [li]. split; [done|]. by apply Forall_singleton.
  - by eexists.
Qed.

Lemma print_keeps pk msg : keeps (appends_line_items_of pk) (print msg).
Proof.
  intros w. unfold appends_line_items_of. unfold_world. repeat split; try done.
  - exists []. by rewrite app_nil_r.
  - by eexists.
Qed.

Lemma line_items_for_keeps order entry :
  keeps (appends_line_items_of order.1) (line_items_for E order entry).
Proof.
  destruct entry as [item_id item_data]. unfold line_items_for.
  apply keeps_try_except; [apply _..| |intros e; apply print_keeps].
  apply keeps_bind; [apply _..|apply keeps_lift; apply _|]. intros product.
  destruct (isinstance_int item_data).
  { apply (create_line_item_keeps
             {| OrderLineItem.order := order.1; OrderLineItem.product := product;
                OrderLineItem.quantity := item_data;
                OrderLineItem.product_size := None |}). }
  apply keeps_bind; [apply _..|apply keeps_lift; apply _|]. intros by_size.
  apply keeps_bind; [apply _..|apply keeps_lift; apply _|]. intros sizes.
  apply keeps_for_each; [apply _..|]. intros [size quantity].
  apply (create_line_item_keeps
           {| OrderLineItem.order := order.1; OrderLineItem.product := product;
              OrderLineItem.quantity := quantity;
              OrderLineItem.product_size := Some size |}).
Qed.

Lemma populate_keeps order bag :
  keeps (appends_line_items_of order.1) (populate E order bag).
Proof.
  unfold populate.
  apply keeps_bind; [apply _..|apply keeps_lift; apply _|]. intros entries.
  apply keeps_for_each; [apply _..|]. intros entry. apply line_items_for_keeps.
Qed.
End LineItems.

(** ** The creation path *)

Section Creation.
Context (E : Env).

Lemma after_misses_after_profile_orders intent w k :
  orders (after_misses E k (after_profile intent w)) = visible E (orders w) (clock w) k.
Proof. simpl. by rewrite after_profile_orders, after_profile_clock. Qed.

(** When the five lookups have missed and the database takes the header,
    the handler runs the line-item loop and then either sends the
    confirmation or deletes the order. *)
Lemma creation_path event w :
  (∀ j, j < 5 → attempt_misses E event w j) →
  Order_accepted E (candidate E event w).2 = true →
  handle_payment_intent_succeeded E event w =
    match populate E (candidate E event w) (bag (object event))
            (emit (EOrderCreate (candidate E event w).1)
               (set_orders (λ tbl, commit tbl (candidate E event w).2)
                  (after_misses E 5 (after_profile (object event) w)))) with
    | (Ok _, wp) =>
        (Ok (Created event),
         (_send_confirmation_email E (candidate E event w)
            (email_to_send (object event)) wp).2)
    | (Raise e, wp) =>
        (Ok (CreationFailed event e),
         emit (EOrderDelete (candidate E event w).1) (discard (candidate E event w).1 wp))
    end.
Proof.
  intros Hmiss Hacc. unfold attempt_misses in Hmiss.
  unfold handle_payment_intent_succeeded.
  rewrite run_bind, profile_step_run, run_bind.
  set (intent := object event) in *.
  set (w0 := after_profile intent w).
  assert (H5 : find_order E 5 = find_order E (5 + 0)) by done.
  rewrite H5. clear H5.
  rewrite find_order_misses; last first.
  { intros j Hj. unfold w0. rewrite after_profile_orders, after_profile_clock.
    by apply Hmiss. }
  rewrite find_order_exhausted, run_bind.
  unfold attempt at 1, Order_objects_create.
  assert (Hcand : (fresh (dom (orders (after_misses E 5 w0))), new_order intent (linked_profile intent w))
                  = candidate E event w).
  { unfold candidate, table_after_misses. fold intent. f_equal.
    unfold w0. by rewrite after_misses_after_profile_orders. }
  assert (Hacc' : Order_accepted E (new_order intent (linked_profile intent w)) = true)
    by exact Hacc.
  rewrite Hacc'. cbv zeta. rewrite Hcand.
  assert (Hpk : fresh (dom (orders (after_misses E 5 w0))) = (candidate E event w).1)
    by (by rewrite <- Hcand).
  rewrite Hpk.
  rewrite run_bind. unfold attempt.
  destruct (populate E (candidate E event w) (bag intent) _) as [[[]|e] wp].
  - rewrite run_bind.
    destruct (send_confirmation_email_total E (candidate E event w)
                (email_to_send intent) wp) as (w' & -> & _).
    done.
  - rewrite run_bind. done.
Qed.
End Creation.

Lemma filter_line_items_of pk (new : list OrderLineItem.t) :
  Forall (λ li, OrderLineItem.order li = pk) new →
  filter (λ li, OrderLineItem.order li ≠ pk) new = [].
Proof.
  induction 1 as [|li new Hli _ IH]; [done|].
  rewrite filter_cons. by destruct (decide (OrderLineItem.order li ≠ pk)).
Qed.

Lemma table_after_misses_fresh E w :
  table_after_misses E w !! fresh (dom (table_after_misses E w)) = None.
Proof. apply not_elem_of_dom, is_fresh. Qed.

Section CreationOutcome.
Context (E : Env).

(** The world in which the line-item loop starts. *)
Lemma creation_start event w :
  let wc := emit (EOrderCreate (candidate E event w).1)
              (set_orders (λ tbl, commit tbl (candidate E event w).2)
                 (after_misses E 5 (after_profile (object event) w))) in
  orders wc = <[(candidate E event w).1 := (candidate E event w).2]> (table_after_misses E w)
  ∧ lineitems wc = lineitems w
  ∧ profiles wc = profiles (after_profile (object event) w)
  ∧ clock wc = clock w + 5
  ∧ trace wc = trace (after_profile (object event) w) ++ misses (clock w) 5
                 ++ [EOrderCreate (candidate E event w).1].
Proof.
  unfold_world. unfold commit, candidate, table_after_misses. simpl.
  rewrite after_profile_orders, after_profile_clock, after_profile_lineitems.
  repeat split; try done. by rewrite <- app_assoc.
Qed.

(** The loop raises in that world what it raises in the world the
    handler started in. *)
Lemma populate_result event w wc :
  lineitems wc = lineitems w →
  (populate E (candidate E event w) (bag (object event)) wc).1
  = (populate E (candidate E event w) (bag (object event)) w).1.
Proof.
  intros Hl. by apply populate_same_lineitems.
Qed.
End CreationOutcome.

Section Entries.
Context (E : Env).

Lemma with_line_items_nil w : with_line_items [] w = w.
Proof.
  unfold with_line_items. simpl. rewrite !app_nil_r. apply World_eta.
Qed.

Lemma with_line_items_cons li new w :
  with_line_items new (with_line_items [li] w) = with_line_items (li :: new) w.
Proof.
  unfold with_line_items. simpl. by rewrite <- !app_assoc.
Qed.

Lemma create_line_item_run li w :
  OrderLineItem_accepted E li = true →
  OrderLineItem_objects_create E li w = (Ok tt, with_line_items [li] w).
Proof.
  intros Hacc. unfold OrderLineItem_objects_create. by rewrite Hacc.
Qed.

(** The inner loop, over the pairs of [items_by_size]. *)
Lemma for_each_size_run order product (sizes : list (string * json)) : ∀ w,
  Forall (λ pair, OrderLineItem_accepted E (sized_line_item order product pair) = true) sizes →
  for_each (λ '(size, quantity),
      OrderLineItem_objects_create E
        {| OrderLineItem.order := order.1; OrderLineItem.product := product;
           OrderLineItem.quantity := quantity;
           OrderLineItem.product_size := Some size |}) sizes w
  = (Ok tt, with_line_items (sized_line_item order product <$> sizes) w).
Proof.
  induction sizes as [|[size quantity] sizes IH]; intros w Hacc.
  - simpl. by rewrite with_line_items_nil.
  - apply Forall_cons in Hacc as [Hacc1 Hacc].
    simpl. rewrite run_bind.
    rewrite (create_line_item_run (sized_line_item order product (size, quantity)))
      by exact Hacc1.
    rewrite IH by exact Hacc. by rewrite with_line_items_cons.
Qed.

(** An entry whose product does not exist is printed and passed over. *)
Lemma line_items_for_skip order item_id item_data w :
  Product_objects_get E item_id = Raise Product_DoesNotExist →
  line_items_for E order (item_id, item_data) w
  = (Ok tt, emit (EPrint ("Product not found for id " +:+ item_id
                            +:+ ", skipping line item.")) w).
Proof.
  intros Hget. unfold line_items_for, try_except. rewrite run_bind.
  unfold lift at 1. by rewrite Hget.
Qed.

Lemma for_each_skip_related order pre item_id item_data post :
  Product_objects_get E item_id = Raise Product_DoesNotExist →
  related same_lineitems
    (for_each (line_items_for E order) (pre ++ (item_id, item_data) :: post))
    (for_each (line_items_for E order) (pre ++ post)).
Proof.
  intros Hget w1 w2 HR. rewrite !for_each_app.
  revert w1 w2 HR. apply related_bind.
  - apply related_for_each. intros entry. apply line_items_for_same_lineitems.
  - intros _ w1 w2 HR. cbn [for_each]. rewrite run_bind.
    rewrite line_items_for_skip by exact Hget.
    apply (related_for_each same_lineitems (line_items_for E order)
             (line_items_for E order) post); [|exact HR].
    intros entry. apply line_items_for_same_lineitems.
Qed.
End Entries.

(** ** What the handler does after the profile step *)

Section AfterProfile.
Context (E : Env).

Lemma emit_keeps_profiles e : ∀ w, keeps_profiles w (emit e w).
Proof. intros w. split; [done|]. by exists [e]. Qed.

Lemma Order_objects_get_keeps q : keeps keeps_profiles (Order_objects_get q).
Proof. intros w. apply emit_keeps_profiles. Qed.

Lemma time_sleep_keeps secs : keeps keeps_profiles (time_sleep E secs).
Proof. intros w. split; [done|]. by exists [ESleep secs]. Qed.

Lemma find_order_keeps n q : keeps keeps_profiles (find_order E n q).
Proof.
  induction n as [|n IH]; simpl.
  - apply keeps_ret; apply _.
  - apply keeps_try_except; [apply _..| |].
    + apply keeps_bind; [apply _..|apply Order_objects_get_keeps|].
      intros order. apply keeps_ret; apply _.
    + intros _. apply keeps_bind; [apply _..|apply time_sleep_keeps|]. by intros _.
Qed.

Lemma send_confirmation_email_keeps order override :
  keeps keeps_profiles (_send_confirmation_email E order override).
Proof.
  intros w.
  destruct (send_confirmation_email_total E order override w)
    as (w' & -> & _ & _ & Hp & _ & Htr).
  unfold keeps_profiles. cbn [snd].
  split; [done|]. destruct Htr as [(m & _ & ->)|(msg & _ & ->)]; by eexists.
Qed.

Lemma Order_objects_create_keeps o : keeps keeps_profiles (Order_objects_create E o).
Proof.
  intros w. unfold Order_objects_create.
  destruct (Order_accepted E o); [|reflexivity]. split; [done|]. by eexists [_].
Qed.

Lemma Order_delete_keeps order : keeps keeps_profiles (Order_delete order).
Proof. intros w. split; [done|]. by eexists [_]. Qed.

Lemma populate_keeps_profiles order bag : keeps keeps_profiles (populate E order bag).
Proof.
  intros w. destruct (populate_keeps E order bag w) as (_ & Hp & _ & _ & _ & Htr).
  by split.
Qed.

(** The first thing [find_order] does is the lookup. *)
Lemma find_order_first n q w :
  find_order E (S n) q w =
  match lookup_in q (orders w) with
  | Ok r => mret (Some r)
  | Raise e => if is_Order_DoesNotExist e then time_sleep E 1;; find_order E n q
               else raise e
  end (emit (EOrderGet (clock w)) w).
Proof.
  simpl. unfold try_except. rewrite run_bind. unfold Order_objects_get.
  destruct (lookup_in q (orders w)) as [r|e]; [done|].
  by destruct (is_Order_DoesNotExist e).
Qed.

(** Lines 122-186, for either value of [order_exists]. *)
Lemma conclusion_keeps event profile (found : option (nat * Order.t)) :
  keeps keeps_profiles
    (match found with
     | Some order =>
         _send_confirmation_email E order None;;
         mret {| content := "Webhook received: " +:+ type event
                   +:+ " | SUCCESS: Verified order already in database";
                 status := 200 |}
     | None =>
         created ← attempt (Order_objects_create E (new_order (object event) profile));
         match created with
         | Raise e =>
             mret {| content := "Webhook received: " +:+ type event
                       +:+ " | ERROR creating order: " +:+ exn_str e;
                     status := 500 |}
         | Ok order =>
             populated ← attempt (populate E order (bag (object event)));
             match populated with
             | Raise e =>
                 Order_delete order;;
                 mret {| content := "Webhook received: " +:+ type event
                           +:+ " | ERROR creating order: " +:+ exn_str e;
                         status := 500 |}
             | Ok _ =>
                 _send_confirmation_email E order (email_to_send (object event));;
                 mret {| content := "Webhook received: " +:+ type event
                           +:+ " | SUCCESS: Created order in webhook";
                         status := 200 |}
             end
         end
     end).
Proof.
  destruct found as [order|].
  - apply keeps_bind; [apply _..|apply send_confirmation_email_keeps|].
    intros _. apply keeps_ret; apply _.
  - apply keeps_bind; [apply _..| |].
    { apply keeps_attempt, Order_objects_create_keeps. }
    intros [order|e]; [|apply keeps_ret; apply _].
    apply keeps_bind; [apply _..| |].
    { apply keeps_attempt, populate_keeps_profiles. }
    intros [[]|e].
    + apply keeps_bind; [apply _..|apply send_confirmation_email_keeps|].
      intros _. apply keeps_ret; apply _.
    + apply keeps_bind; [apply _..|apply Order_delete_keeps|].
      intros _. apply keeps_ret; apply _.
Qed.

(** After the profile step the handler starts with a lookup and leaves
    the profile table alone. *)
Lemma handle_after_profile event w :
  keeps_profiles (emit (EOrderGet (clock w)) (after_profile (object event) w))
    (handle_payment_intent_succeeded E event w).2.
Proof.
  unfold handle_payment_intent_succeeded.
  rewrite run_bind, profile_step_run, run_bind, find_order_first.
  rewrite after_profile_clock.
  set (w1 := emit (EOrderGet (clock w)) (after_profile (object event) w)).
  set (first := match lookup_in _ _ with Ok r => _ | Raise e => _ end).
  assert (Hfirst : keeps keeps_profiles first).
  { unfold first. destruct (lookup_in _ _) as [r|e].
    - apply keeps_ret; apply _.
    - destruct (is_Order_DoesNotExist e); [|apply keeps_raise; apply _].
      apply keeps_bind; [apply _..|apply time_sleep_keeps|].
      intros _. apply find_order_keeps. }
  pose proof (Hfirst w1) as H1.
  destruct (first w1) as [[found|e] w2]; cbn [snd] in *; [|exact H1].
  etrans; [exact H1|]. apply conclusion_keeps.
Qed.
End AfterProfile.

(** ** The profile update, field by field *)

Lemma truthy_true s : s ≠ "" → truthy s = true.
Proof.
  intros Hs. unfold truthy. apply negb_true_iff. by apply String.eqb_neq.
Qed.

Lemma or_opt_supplied v old : v ≠ "" → or_opt (Some v) old = Some v.
Proof. intros Hv. unfold or_opt. by rewrite truthy_true. Qed.

Lemma address_get_supplied intent key :
  address_get intent key = clean (supplied_address intent key).
Proof.
  unfold address_get, address, supplied_address, shipping_details.
  rewrite lookup_fmap.
  destruct (Intent.shipping intent ≫= Shipping.address) as [a|]; simpl.
  - by destruct (a !! key) as [[v|]|].
  - by rewrite lookup_empty.
Qed.

Lemma or_opt_address_supplied intent key old v :
  supplied_address intent key = Some v → v ≠ "" →
  or_opt (address_get intent key) old = Some v.
Proof.
  intros Hsup Hv. rewrite address_get_supplied, Hsup. unfold clean.
  apply String.eqb_neq in Hv as Hv'. rewrite Hv'. by apply or_opt_supplied.
Qed.

Lemma or_opt_address_kept intent key old :
  supplied_address intent key = None ∨ supplied_address intent key = Some "" →
  or_opt (address_get intent key) old = old.
Proof.
  intros [Hsup|Hsup]; by rewrite address_get_supplied, Hsup.
Qed.

Lemma update_profile_address_fields intent p key field :
  (key, field) ∈ profile_address_fields →
  (∀ v, supplied_address intent key = Some v → v ≠ "" →
        field (update_profile intent p) = Some v)
  ∧ (supplied_address intent key = None ∨ supplied_address intent key = Some "" →
     field (update_profile intent p) = field p).
Proof.
  intros Hin.
  assert (Hall : Forall (λ kf : string * (UserProfile.t → option string),
            (∀ v, supplied_address intent kf.1 = Some v → v ≠ "" →
                  kf.2 (update_profile intent p) = Some v)
            ∧ (supplied_address intent kf.1 = None ∨ supplied_address intent kf.1 = Some "" →
               kf.2 (update_profile intent p) = kf.2 p)) profile_address_fields).
  { unfold profile_address_fields.
    repeat (apply Forall_cons; split;
            [split; [intros v; apply or_opt_address_supplied|apply or_opt_address_kept]|]).
    by apply Forall_nil. }
  rewrite Forall_forall in Hall. exact (Hall (key, field) Hin).
Qed.

Lemma after_profile_saved intent w p :
  username intent ≠ "AnonymousUser" →
  profiles w !! username intent = Some p →
  save_info intent = true →
  after_profile intent w
  = emit (EProfileSave (username intent) (update_profile intent p))
      (set_profiles (insert (username intent) (update_profile intent p)) w).
Proof.
  intros Huser Hp Hsave. unfold after_profile.
  apply String.eqb_neq in Huser. by rewrite Huser, Hp, Hsave.
Qed.

(** ** Two notifiers *)

Section TwoNotifiers.
Context (E1 E2 : Env).
Context (Hjson : json_loads E1 = json_loads E2).
Context (Hprod : Product_objects_get E1 = Product_objects_get E2).
Context (Harr : arrivals E1 = arrivals E2).
Context (Hord : Order_accepted E1 = Order_accepted E2).
Context (Hli : OrderLineItem_accepted E1 = OrderLineItem_accepted E2).

Lemma same_tables_emit e1 e2 w1 w2 :
  same_tables w1 w2 → same_tables (emit e1 w1) (emit e2 w2).
Proof. by intros (? & ? & ? & ?). Qed.

Lemma visible_agree tbl t n : visible E1 tbl t n = visible E2 tbl t n.
Proof.
  revert tbl t. induction n as [|n IH]; intros tbl t; [done|].
  simpl. unfold tick. by rewrite Harr, IH.
Qed.

Lemma Order_objects_get_same_tables q :
  related same_tables (Order_objects_get q) (Order_objects_get q).
Proof.
  intros w1 w2 HR. unfold Order_objects_get. cbn [fst snd].
  split; [|by apply same_tables_emit]. destruct HR as (-> & _). done.
Qed.

Lemma time_sleep_same_tables secs :
  related same_tables (time_sleep E1 secs) (time_sleep E2 secs).
Proof.
  intros w1 w2 (Ho & Hl & Hp & Hc). split; [done|].
  unfold same_tables. simpl. by rewrite Ho, Hl, Hp, Hc, visible_agree.
Qed.

Lemma find_order_same_tables n q :
  related same_tables (find_order E1 n q) (find_order E2 n q).
Proof.
  induction n as [|n IH]; simpl.
  - apply related_ret.
  - apply related_try_except.
    + apply related_bind; [apply Order_objects_get_same_tables|].
      intros order. apply related_ret.
    + intros _. apply related_bind; [apply time_sleep_same_tables|]. by intros _.
Qed.

Lemma Order_objects_create_same_tables o :
  related same_tables (Order_objects_create E1 o) (Order_objects_create E2 o).
Proof.
  intros w1 w2 (Ho & Hl & Hp & Hc). unfold Order_objects_create. rewrite Hord.
  destruct (Order_accepted E2 o); [|done]. cbn [fst snd].
  split; [by rewrite Ho|]. unfold same_tables. simpl. by rewrite Ho, Hl, Hp, Hc.
Qed.

Lemma Order_delete_same_tables order :
  related same_tables (Order_delete order) (Order_delete order).
Proof.
  intros w1 w2 (Ho & Hl & Hp & Hc). split; [done|].
  unfold same_tables. simpl. by rewrite Ho, Hl, Hp, Hc.
Qed.

Lemma populate_same_tables order bag :
  related same_tables (populate E1 order bag) (populate E2 order bag).
Proof.
  apply populate_related; try done; try apply same_tables_emit.
  intros li w1 w2 (Ho & Hl & Hp & Hc). unfold same_tables. simpl. by rewrite Hl.
Qed.

(** Whatever the two notifiers do, both calls return and leave the
    tables. *)
Lemma send_confirmation_email_same_tables order override1 override2 :
  related same_tables (_send_confirmation_email E1 order override1)
    (_send_confirmation_email E2 order override2).
Proof.
  intros w1 w2 (Ho & Hl & Hp & Hc).
  destruct (send_confirmation_email_total E1 order override1 w1)
    as (w1' & -> & Ho1 & Hl1 & Hp1 & Hc1 & _).
  destruct (send_confirmation_email_total E2 order override2 w2)
    as (w2' & -> & Ho2 & Hl2 & Hp2 & Hc2 & _).
  split; [done|]. unfold same_tables. cbn [snd]. by rewrite Ho1, Hl1, Hp1, Hc1, Ho2, Hl2, Hp2, Hc2.
Qed.

Lemma profile_step_same_tables intent :
  related same_tables (profile_step intent) (profile_step intent).
Proof.
  intros w1 w2 (Ho & Hl & Hp & Hc). rewrite !profile_step_run. cbn [fst snd].
  unfold linked_profile, after_profile, same_tables. rewrite Hp.
  destruct (String.eqb _ _); [done|].
  destruct (profiles w2 !! username intent); [|done].
  destruct (save_info intent); [|done]. simpl. by rewrite Hp.
Qed.

Lemma handle_same_tables event :
  related same_tables (handle_payment_intent_succeeded E1 event)
    (handle_payment_intent_succeeded E2 event).
Proof.
  unfold handle_payment_intent_succeeded.
  apply related_bind; [apply profile_step_same_tables|]. intros profile.
  apply related_bind; [apply find_order_same_tables|]. intros [order|].
  - apply related_bind; [apply send_confirmation_email_same_tables|].
    intros _. apply related_ret.
  - apply related_bind.
    { apply related_attempt, Order_objects_create_same_tables. }
    intros [order|e]; [|apply related_ret].
    apply related_bind.
    { apply related_attempt, populate_same_tables. }
    intros [[]|e].
    + apply related_bind; [apply send_confirmation_email_same_tables|].
      intros _. apply related_ret.
    + apply related_bind; [apply Order_delete_same_tables|].
      intros _. apply related_ret.
Qed.
End TwoNotifiers.

(** The recipient, in the order of line 23: the e-mail of the order, else
    the override, else the e-mail of the account behind the order. *)
Lemma cust_email_priority order override w :
  (cust_email order override w).1 =
  if truthy (Order.email order.2) then Ok (Order.email order.2)
  else match or_opt override None with
       | Some e => Ok e
       | None =>
           match Order.user_profile order.2 with
           | None => Raise AttributeError
           | Some u =>
               match profiles w !! u with
               | Some p => Ok (User.email (UserProfile.user p))
               | None => Raise UserProfile_DoesNotExist
               end
           end
       end.
Proof.
  unfold cust_email, order_user_profile_user, or_opt.
  destruct (truthy (Order.email order.2)); [done|].
  destruct override as [e|]; [destruct (truthy e); [done|]|];
    rewrite run_bind;
    (destruct (Order.user_profile order.2) as [u|]; [|done]);
    rewrite run_bind; unfold UserProfile_objects_get;
    by destruct (profiles w !! u).
Qed.

(** ** The other two handlers *)

Lemma handle_event_unhandled event w :
  StripeWH_Handler.handle_event event w = (Ok (Unhandled event), w).
Proof. reflexivity. Qed.

Lemma payment_failed_changes_nothing event w :
  (handle_payment_intent_payment_failed event w).2 = w
  ∧ status <$> match (handle_payment_intent_payment_failed event w).1 with
               | Ok r => Some r
               | Raise _ => None
               end = Some 200.
Proof. by split. Qed.

(** ** The snapshots of the shop, end to end *)

Example plain_quantity_end_to_end :
  lineitems (handle_payment_intent_succeeded (Demo.env Demo.quiet)
               (Demo.event Demo.bag_plain (Some "alice@example.com") None) Demo.world).2
  = [{| OrderLineItem.order := 0; OrderLineItem.product := Demo.jacket;
        OrderLineItem.quantity := JInt 3; OrderLineItem.product_size := None |}].
Proof. vm_compute. reflexivity. Qed.

Example sizes_end_to_end :
  lineitems (handle_payment_intent_succeeded (Demo.env Demo.quiet)
               (Demo.event Demo.bag_sizes (Some "alice@example.com") None) Demo.world).2
  = [{| OrderLineItem.order := 0; OrderLineItem.product := Demo.jacket;
        OrderLineItem.quantity := JInt 2; OrderLineItem.product_size := Some "M" |};
     {| OrderLineItem.order := 0; OrderLineItem.product := Demo.jacket;
        OrderLineItem.quantity := JInt 1; OrderLineItem.product_size := Some "L" |}].
Proof. vm_compute. reflexivity. Qed.

(** The charged amount 4999 is the total 49.99. *)
Example amount_4999_is_49_99 :
  Qeq_bool (grand_total (Demo.intent Demo.bag_plain None None)) 49.99 = true.
Proof. reflexivity. Qed.

(** The checkout view commits its order after the fifth lookup: the
    handler creates a second order under the same composite key.  When the
    event is delivered again, the lookup raises [MultipleObjectsReturned],
    which the loop does not handle. *)
Example two_matching_orders_raise :
  let E := Demo.env Demo.checkout_after_last_lookup in
  let event := Demo.event Demo.bag_plain (Some "alice@example.com") None in
  let first := handle_payment_intent_succeeded E event Demo.world in
  first.1 = Ok (Created event)
  ∧ size (orders first.2) = 2
  ∧ (handle_payment_intent_succeeded E event first.2).1 = Raise Order_MultipleObjectsReturned.
Proof. vm_compute. repeat split. Qed.

(** ** The properties of the reconciliation *)





(** C2, as stated, fails where the creation path raises: the five lookups
    miss, the header is created, the snapshot gives the quantity of item 12
    as a text, which has no [get]; the handler deletes the order and
    answers "creation failed". *)
Lemma all_miss_yet_not_created :
  (∀ j, j < 5 →
     attempt_misses (Demo.env Demo.quiet)
       (Demo.event Demo.bag_text_quantity (Some "alice@example.com") None) Demo.world j)
  ∧ (handle_payment_intent_succeeded (Demo.env Demo.quiet)
       (Demo.event Demo.bag_text_quantity (Some "alice@example.com") None) Demo.world).1
    = Ok (CreationFailed (Demo.event Demo.bag_text_quantity (Some "alice@example.com") None)
            AttributeError)
  ∧ (handle_payment_intent_succeeded (Demo.env Demo.quiet)
       (Demo.event Demo.bag_text_quantity (Some "alice@example.com") None) Demo.world).1
    ≠ Ok (Created (Demo.event Demo.bag_text_quantity (Some "alice@example.com") None))
  ∧ orders (handle_payment_intent_succeeded (Demo.env Demo.quiet)
              (Demo.event Demo.bag_text_quantity (Some "alice@example.com") None)
              Demo.world).2 = ∅.
Proof.
  split.
  { intros j Hj. destruct j as [|[|[|[|[|j]]]]]; [vm_compute; reflexivity..|lia]. }
  split; [vm_compute; reflexivity|]. split; [vm_compute; discriminate|].
  vm_compute. reflexivity.
Qed.

(** C2, amended.  When the five lookups raise [DoesNotExist] (one time
    unit of sleep after each), the database takes the header and the
    line-item loop raises nothing, the handler answers "created" and has
    created one order: the order table is the one visible after the fifth
    sleep plus the order built from the normalised fields of the event,
    under a key that was free.  (What the loop returns depends on no table:
    [populate_result].) *)
Theorem created_when_all_miss E event w :
  (∀ j, j < 5 → attempt_misses E event w j) →
  Order_accepted E (candidate E event w).2 = true →
  (populate E (candidate E event w) (bag (object event)) w).1 = Ok tt →
  ∃ w', handle_payment_intent_succeeded E event w = (Ok (Created event), w')
        ∧ table_after_misses E w !! (candidate E event w).1 = None
        ∧ orders w' = <[(candidate E event w).1 :=
                          new_order (object event) (linked_profile (object event) w)]>
                        (table_after_misses E w)
        ∧ clock w' = clock w + 5
        ∧ ∃ tr, trace w' = trace (after_profile (object event) w) ++ misses (clock w) 5
                             ++ EOrderCreate (candidate E event w).1 :: tr.
Proof.
  intros Hmiss Hacc Hpop.
  rewrite creation_path by done.
  pose proof (creation_start E event w) as Hstart. cbv zeta in Hstart.
  set (wc := emit (EOrderCreate _) _) in *.
  destruct Hstart as (Ho & Hl & _ & Hc & Ht).
  pose proof (populate_result E event w wc Hl) as Hres. rewrite Hpop in Hres.
  pose proof (populate_keeps E (candidate E event w) (bag (object event)) wc) as Hk.
  destruct (populate E (candidate E event w) (bag (object event)) wc) as [[[]|e] wp];
    cbn [fst snd] in Hres, Hk; [clear Hres|discriminate].
  destruct Hk as (Ho' & _ & Hc' & _ & _ & (tr & Ht')).
  destruct (send_confirmation_email_total E (candidate E event w)
              (email_to_send (object event)) wp) as (w' & -> & Ho'' & _ & _ & Hc'' & Ht'').
  exists w'. split; [done|]. split; [apply table_after_misses_fresh|].
  split; [by rewrite Ho'', Ho', Ho|]. split; [by rewrite Hc'', Hc', Hc|].
  destruct Ht'' as [(m & _ & ->)|(msg & _ & ->)]; rewrite Ht', Ht.
  - exists (tr ++ [ESendMail m]). by rewrite <- !app_assoc.
  - exists (tr ++ [EPrint msg]). by rewrite <- !app_assoc.
Qed.

Lemma created_when_all_miss_witness :
  ∃ w', handle_payment_intent_succeeded (Demo.env Demo.quiet)
          (Demo.event Demo.bag_plain (Some "alice@example.com") None) Demo.world
        = (Ok (Created (Demo.event Demo.bag_plain (Some "alice@example.com") None)), w')
        ∧ size (orders w') = 1.
Proof.
  destruct (created_when_all_miss (Demo.env Demo.quiet)
              (Demo.event Demo.bag_plain (Some "alice@example.com") None) Demo.world)
    as (w' & Hrun & Hfree & Ho & _).
  - intros j Hj. destruct j as [|[|[|[|[|j]]]]]; [vm_compute; reflexivity..|lia].
  - vm_compute. reflexivity.
  - vm_compute. reflexivity.
  - exists w'. split; [exact Hrun|]. rewrite Ho. reflexivity.
Defined.

(** C3.  When the five lookups have missed, the database has taken the
    header and the line-item loop then raises, the handler deletes the
    order it created, as its last effect, and answers "creation failed":
    the order table is the one visible after the fifth sleep, without the
    key of the order, and no line item of that order is left.  (What the
    loop raises depends on no table: [populate_result].) *)
Theorem created_order_deleted_on_failure E event w e :
  (∀ j, j < 5 → attempt_misses E event w j) →
  Order_accepted E (candidate E event w).2 = true →
  (populate E (candidate E event w) (bag (object event)) w).1 = Raise e →
  ∃ w', handle_payment_intent_succeeded E event w = (Ok (CreationFailed event e), w')
        ∧ orders w' = table_after_misses E w
        ∧ orders w' !! (candidate E event w).1 = None
        ∧ lineitems w' = filter (λ li, OrderLineItem.order li ≠ (candidate E event w).1)
                           (lineitems w)
        ∧ (∀ li, li ∈ lineitems w' → OrderLineItem.order li ≠ (candidate E event w).1)
        ∧ ∃ tr, trace w' = trace (after_profile (object event) w) ++ misses (clock w) 5
                             ++ EOrderCreate (candidate E event w).1 :: tr
                             ++ [EOrderDelete (candidate E event w).1].
Proof.
  intros Hmiss Hacc Hpop.
  rewrite creation_path by done.
  pose proof (creation_start E event w) as Hstart. cbv zeta in Hstart.
  set (wc := emit (EOrderCreate _) _) in *.
  destruct Hstart as (Ho & Hl & _ & Hc & Ht).
  pose proof (populate_result E event w wc Hl) as Hres. rewrite Hpop in Hres.
  pose proof (populate_keeps E (candidate E event w) (bag (object event)) wc) as Hk.
  destruct (populate E (candidate E event w) (bag (object event)) wc) as [[[]|e'] wp];
    cbn [fst snd] in Hres, Hk; [discriminate|]. injection Hres as ->.
  destruct Hk as (Ho' & _ & _ & _ & (new & Hl' & Hnew) & (tr & Ht')).
  eexists. split; [done|].
  unfold emit, discard, set_lineitems, set_orders. cbn [orders lineitems trace].
  assert (Horders : delete (candidate E event w).1 (orders wp) = table_after_misses E w).
  { rewrite Ho', Ho. apply delete_insert_id, table_after_misses_fresh. }
  assert (Hitems : filter (λ li, OrderLineItem.order li ≠ (candidate E event w).1) (lineitems wp)
                   = filter (λ li, OrderLineItem.order li ≠ (candidate E event w).1) (lineitems w)).
  { rewrite Hl', Hl, filter_app, (filter_line_items_of _ new Hnew). by rewrite app_nil_r. }
  split; [exact Horders|]. split; [rewrite Horders; apply table_after_misses_fresh|].
  split; [exact Hitems|]. split.
  - intros li Hli. by apply list_elem_of_filter in Hli as [Hli _].
  - exists tr. rewrite Ht', Ht. by rewrite <- !app_assoc.
Qed.

Lemma created_order_deleted_on_failure_witness :
  ∃ w', handle_payment_intent_succeeded (Demo.env Demo.quiet)
          (Demo.event Demo.bag_null_quantity (Some "alice@example.com") None) Demo.world
        = (Ok (CreationFailed
                 (Demo.event Demo.bag_null_quantity (Some "alice@example.com") None)
                 DatabaseError), w')
        ∧ orders w' = ∅ ∧ lineitems w' = [].
Proof.
  destruct (created_order_deleted_on_failure (Demo.env Demo.quiet)
              (Demo.event Demo.bag_null_quantity (Some "alice@example.com") None) Demo.world
              DatabaseError)
    as (w' & Hrun & Ho & _ & Hl & _).
  - intros j Hj. destruct j as [|[|[|[|[|j]]]]]; [vm_compute; reflexivity..|lia].
  - vm_compute. reflexivity.
  - vm_compute. reflexivity.
  - exists w'. split; [exact Hrun|]. by rewrite Ho, Hl.
Defined.

(** The body of the loop, for an entry of the snapshot whose product
    exists: a plain integer makes it write one line item, with that
    quantity and no size; a mapping with [items_by_size] makes it write one
    line item for each pair of a size and a quantity, in their order.
    Nothing else is written. *)
Theorem line_items_of_an_entry E order item_id product w :
  Product_objects_get E item_id = Ok product →
  (∀ n, OrderLineItem_accepted E (line_item order product (JInt n) None) = true →
        line_items_for E order (item_id, JInt n) w
        = (Ok tt, with_line_items [line_item order product (JInt n) None] w))
  ∧ (∀ d sizes,
        assoc "items_by_size" d = Some (JDict sizes) →
        Forall (λ pair, OrderLineItem_accepted E (sized_line_item order product pair) = true)
               sizes →
        line_items_for E order (item_id, JDict d) w
        = (Ok tt, with_line_items (sized_line_item order product <$> sizes) w)).
Proof.
  intros Hget. split.
  - intros n Hacc. unfold line_items_for, try_except. rewrite run_bind.
    unfold lift at 1. rewrite Hget. cbn [isinstance_int].
    by rewrite (create_line_item_run E (line_item order product (JInt n) None)).
  - intros d sizes Hsizes Hacc. unfold line_items_for, try_except. rewrite run_bind.
    unfold lift at 1. rewrite Hget. cbn [isinstance_int get].
    rewrite Hsizes. cbn [default from_option id]. rewrite run_bind. unfold lift at 1.
    rewrite run_bind. unfold lift at 1. cbn [items].
    by rewrite for_each_size_run.
Qed.

Lemma line_items_of_an_entry_witness :
  (Json.loads Demo.bag_plain = Some (JDict [("12", JInt 3)])
   ∧ lineitems (line_items_for (Demo.env Demo.quiet) (0, Demo.checkout_order Demo.bag_plain "" None)
                  ("12", JInt 3) Demo.world).2
     = [line_item (0, Demo.checkout_order Demo.bag_plain "" None) Demo.jacket (JInt 3) None])
  ∧ (Json.loads Demo.bag_sizes
     = Some (JDict [("12", JDict [("items_by_size", JDict [("M", JInt 2); ("L", JInt 1)])])])
     ∧ lineitems (line_items_for (Demo.env Demo.quiet)
                    (0, Demo.checkout_order Demo.bag_sizes "" None)
                    ("12", JDict [("items_by_size", JDict [("M", JInt 2); ("L", JInt 1)])])
                    Demo.world).2
       = [line_item (0, Demo.checkout_order Demo.bag_sizes "" None) Demo.jacket (JInt 2) (Some "M");
          line_item (0, Demo.checkout_order Demo.bag_sizes "" None) Demo.jacket (JInt 1) (Some "L")]).
Proof.
  split; (split; [vm_compute; reflexivity|]).
  - destruct (line_items_of_an_entry (Demo.env Demo.quiet)
                (0, Demo.checkout_order Demo.bag_plain "" None) "12" Demo.jacket Demo.world)
      as [Hplain _]; [vm_compute; reflexivity|].
    rewrite (Hplain 3%Z); [reflexivity|vm_compute; reflexivity].
  - destruct (line_items_of_an_entry (Demo.env Demo.quiet)
                (0, Demo.checkout_order Demo.bag_sizes "" None) "12" Demo.jacket Demo.world)
      as [_ Hsizes]; [vm_compute; reflexivity|].
    rewrite (Hsizes [("items_by_size", JDict [("M", JInt 2); ("L", JInt 1)])]
               [("M", JInt 2); ("L", JInt 1)]); [reflexivity|reflexivity|].
    repeat constructor.
Defined.

(** C9, amended.  When the five lookups have missed, the database takes
    the header and the snapshot has an entry for whose id the catalogue
    raises [DoesNotExist], that entry is printed and passed over: if the
    other entries raise nothing, the handler answers "created", the order
    is in the table, and the line items are those of the other entries. *)
Theorem missing_product_is_skipped E event w pre item_id item_data post :
  (∀ j, j < 5 → attempt_misses E event w j) →
  Order_accepted E (candidate E event w).2 = true →
  json_loads E (bag (object event)) = Some (JDict (pre ++ (item_id, item_data) :: post)) →
  Product_objects_get E item_id = Raise Product_DoesNotExist →
  (for_each (line_items_for E (candidate E event w)) (pre ++ post) w).1 = Ok tt →
  ∃ w', handle_payment_intent_succeeded E event w = (Ok (Created event), w')
        ∧ orders w' = <[(candidate E event w).1 :=
                          new_order (object event) (linked_profile (object event) w)]>
                        (table_after_misses E w)
        ∧ lineitems w'
          = lineitems (for_each (line_items_for E (candidate E event w)) (pre ++ post) w).2
        ∧ ∀ w1, line_items_for E (candidate E event w) (item_id, item_data) w1
                = (Ok tt, emit (EPrint ("Product not found for id " +:+ item_id
                                          +:+ ", skipping line item.")) w1).
Proof.
  intros Hmiss Hacc Hjson Hget Hothers.
  rewrite creation_path by done.
  pose proof (creation_start E event w) as Hstart. cbv zeta in Hstart.
  set (wc := emit (EOrderCreate _) _) in *.
  destruct Hstart as (Ho & Hl & _ & _ & _).
  pose proof (populate_keeps E (candidate E event w) (bag (object event)) wc) as Hk.
  assert (Hrun : populate E (candidate E event w) (bag (object event)) wc
                 = for_each (line_items_for E (candidate E event w))
                     (pre ++ (item_id, item_data) :: post) wc).
  { unfold populate, bag_data. by rewrite Hjson. }
  destruct (for_each_skip_related E (candidate E event w) pre item_id item_data post
              Hget wc w Hl) as [Hres Hitems].
  rewrite <- Hrun, Hothers in Hres. rewrite <- Hrun in Hitems.
  destruct (populate E (candidate E event w) (bag (object event)) wc) as [[[]|e] wp];
    cbn [fst snd] in Hres, Hk, Hitems; [clear Hres|discriminate].
  destruct Hk as (Ho' & _).
  destruct (send_confirmation_email_total E (candidate E event w)
              (email_to_send (object event)) wp) as (w' & -> & Ho'' & Hl'' & _).
  exists w'. split; [done|]. split; [by rewrite Ho'', Ho', Ho|].
  split; [by rewrite Hl''|]. intros w1. by apply line_items_for_skip.
Qed.

Lemma missing_product_is_skipped_witness :
  ∃ w', handle_payment_intent_succeeded (Demo.env Demo.quiet)
          (Demo.event Demo.bag_unknown (Some "alice@example.com") None) Demo.world
        = (Ok (Created (Demo.event Demo.bag_unknown (Some "alice@example.com") None)), w')
        ∧ size (orders w') = 1 ∧ lineitems w' = [].
Proof.
  destruct (missing_product_is_skipped (Demo.env Demo.quiet)
              (Demo.event Demo.bag_unknown (Some "alice@example.com") None) Demo.world
              [] "99" (JInt 1) [])
    as (w' & Hrun & Ho & Hl & _).
  - intros j Hj. destruct j as [|[|[|[|[|j]]]]]; [vm_compute; reflexivity..|lia].
  - vm_compute. reflexivity.
  - vm_compute. reflexivity.
  - vm_compute. reflexivity.
  - vm_compute. reflexivity.
  - exists w'. split; [exact Hrun|]. rewrite Ho, Hl. split; reflexivity.
Defined.

(** C10.  When the five lookups have missed, the database takes the header
    and the snapshot is not JSON, the snapshot counts as the empty dict:
    the handler answers "created", the order is in the table, and no line
    item is written. *)
Theorem malformed_snapshot_is_empty E event w :
  (∀ j, j < 5 → attempt_misses E event w j) →
  Order_accepted E (candidate E event w).2 = true →
  json_loads E (bag (object event)) = None →
  bag_data E (bag (object event)) = JDict []
  ∧ ∃ w', handle_payment_intent_succeeded E event w = (Ok (Created event), w')
          ∧ table_after_misses E w !! (candidate E event w).1 = None
          ∧ orders w' = <[(candidate E event w).1 :=
                            new_order (object event) (linked_profile (object event) w)]>
                          (table_after_misses E w)
          ∧ lineitems w' = lineitems w.
Proof.
  intros Hmiss Hacc Hjson.
  assert (Hdata : bag_data E (bag (object event)) = JDict [])
    by (unfold bag_data; by rewrite Hjson).
  split; [exact Hdata|].
  rewrite creation_path by done.
  pose proof (creation_start E event w) as Hstart. cbv zeta in Hstart.
  set (wc := emit (EOrderCreate _) _) in *.
  destruct Hstart as (Ho & Hl & _ & _ & _).
  assert (Hrun : populate E (candidate E event w) (bag (object event)) wc = (Ok tt, wc)).
  { unfold populate. by rewrite Hdata. }
  rewrite Hrun.
  destruct (send_confirmation_email_total E (candidate E event w)
              (email_to_send (object event)) wc) as (w' & -> & Ho' & Hl' & _).
  exists w'. split; [done|]. split; [apply table_after_misses_fresh|].
  split; [by rewrite Ho', Ho|]. by rewrite Hl', Hl.
Qed.

Lemma malformed_snapshot_is_empty_witness :
  ∃ w', handle_payment_intent_succeeded (Demo.env Demo.quiet)
          (Demo.event Demo.bag_malformed (Some "alice@example.com") None) Demo.world
        = (Ok (Created (Demo.event Demo.bag_malformed (Some "alice@example.com") None)), w')
        ∧ size (orders w') = 1 ∧ lineitems w' = [].
Proof.
  destruct (malformed_snapshot_is_empty (Demo.env Demo.quiet)
              (Demo.event Demo.bag_malformed (Some "alice@example.com") None) Demo.world)
    as (_ & w' & Hrun & _ & Ho & Hl).
  - intros j Hj. destruct j as [|[|[|[|[|j]]]]]; [vm_compute; reflexivity..|lia].
  - vm_compute. reflexivity.
  - vm_compute. reflexivity.
  - exists w'. split; [exact Hrun|]. rewrite Ho, Hl. split; reflexivity.
Defined.

(** C5.  For an event that names a profile that exists, under a username
    other than the anonymous one, and that carries the opt-in flag, the
    handler saves the updated profile and only then makes its first order
    lookup; whatever it answers afterwards, the profile table ends as the
    table it started with plus that saved profile. *)
Theorem profile_saved_before_lookup E event w p :
  username (object event) ≠ "AnonymousUser" →
  profiles w !! username (object event) = Some p →
  save_info (object event) = true →
  profiles (handle_payment_intent_succeeded E event w).2
  = <[username (object event) := update_profile (object event) p]> (profiles w)
  ∧ ∃ tr, trace (handle_payment_intent_succeeded E event w).2
          = trace w ++ EProfileSave (username (object event)) (update_profile (object event) p)
                    :: EOrderGet (clock w) :: tr.
Proof.
  intros Huser Hp Hsave.
  destruct (handle_after_profile E event w) as [Hprof (tr & Htr)].
  rewrite (after_profile_saved _ _ p) in Hprof, Htr by done.
  split; [exact Hprof|]. exists tr. rewrite Htr. simpl. by rewrite <- !app_assoc.
Qed.

Lemma profile_saved_before_lookup_witness :
  (* the order is found at the third attempt *)
  ((handle_payment_intent_succeeded (Demo.env Demo.late_checkout)
      (Demo.event Demo.bag_plain (Some "alice@example.com") None) Demo.world).1
   = Ok (AlreadyRecorded (Demo.event Demo.bag_plain (Some "alice@example.com") None))
   ∧ profiles (handle_payment_intent_succeeded (Demo.env Demo.late_checkout)
                 (Demo.event Demo.bag_plain (Some "alice@example.com") None) Demo.world).2
     = <["alice" := update_profile (Demo.intent Demo.bag_plain (Some "alice@example.com") None)
                      Demo.alice]> (profiles Demo.world))
  (* the creation fails *)
  ∧ ((handle_payment_intent_succeeded (Demo.env Demo.quiet)
        (Demo.event Demo.bag_null_quantity (Some "alice@example.com") None) Demo.world).1
     = Ok (CreationFailed (Demo.event Demo.bag_null_quantity (Some "alice@example.com") None)
             DatabaseError)
     ∧ profiles (handle_payment_intent_succeeded (Demo.env Demo.quiet)
                   (Demo.event Demo.bag_null_quantity (Some "alice@example.com") None)
                   Demo.world).2
       = <["alice" := update_profile
                        (Demo.intent Demo.bag_null_quantity (Some "alice@example.com") None)
                        Demo.alice]> (profiles Demo.world)).
Proof.
  split; (split; [vm_compute; reflexivity|]).
  - apply (profile_saved_before_lookup (Demo.env Demo.late_checkout)
             (Demo.event Demo.bag_plain (Some "alice@example.com") None) Demo.world Demo.alice);
      [discriminate|reflexivity|reflexivity].
  - apply (profile_saved_before_lookup (Demo.env Demo.quiet)
             (Demo.event Demo.bag_null_quantity (Some "alice@example.com") None) Demo.world
             Demo.alice);
      [discriminate|reflexivity|reflexivity].
Defined.

(** C8.  When the opt-in update runs, the profile stored under the
    username keeps its account, takes the telephone number and each address
    field that the event supplies with a value that is not empty, and keeps
    its own value for every field that the event lacks or supplies empty;
    so an empty postcode in the event leaves the stored postcode.  No other
    profile changes. *)
Theorem profile_update_overwrites_supplied_only E event w p :
  username (object event) ≠ "AnonymousUser" →
  profiles w !! username (object event) = Some p →
  save_info (object event) = true →
  ∃ p', profiles (handle_payment_intent_succeeded E event w).2
        = <[username (object event) := p']> (profiles w)
      ∧ UserProfile.user p' = UserProfile.user p
      ∧ (∀ v, supplied_phone (object event) = Some v → v ≠ "" →
              UserProfile.default_phone_number p' = Some v)
      ∧ (supplied_phone (object event) = None ∨ supplied_phone (object event) = Some "" →
         UserProfile.default_phone_number p' = UserProfile.default_phone_number p)
      ∧ (∀ key field, (key, field) ∈ profile_address_fields →
           (∀ v, supplied_address (object event) key = Some v → v ≠ "" → field p' = Some v)
           ∧ (supplied_address (object event) key = None
              ∨ supplied_address (object event) key = Some "" → field p' = field p))
      ∧ (supplied_address (object event) "postal_code" = Some "" →
         UserProfile.default_postcode p' = UserProfile.default_postcode p)
      ∧ ∀ other, other ≠ username (object event) →
          profiles (handle_payment_intent_succeeded E event w).2 !! other = profiles w !! other.
Proof.
  intros Huser Hp Hsave.
  destruct (handle_after_profile E event w) as [Hprof _].
  rewrite (after_profile_saved _ _ p) in Hprof by done. simpl in Hprof.
  exists (update_profile (object event) p).
  split; [exact Hprof|]. split; [done|]. split.
  { intros v Hv Hne. unfold supplied_phone in Hv. simpl.
    unfold shipping_details. rewrite Hv. by apply or_opt_supplied. }
  split.
  { intros Hv. unfold supplied_phone in Hv. simpl. unfold shipping_details.
    by destruct Hv as [->| ->]. }
  split.
  { intros key field Hin. by apply update_profile_address_fields. }
  split.
  { intros Hv. simpl. apply or_opt_address_kept. by right. }
  intros other Hother. rewrite Hprof. by apply lookup_insert_ne.
Qed.

Lemma profile_update_overwrites_supplied_only_witness :
  ∃ p', profiles (handle_payment_intent_succeeded (Demo.env Demo.quiet)
                    (Demo.event Demo.bag_plain (Some "alice@example.com") None) Demo.world).2
          !! "alice" = Some p'
        ∧ supplied_address (Demo.intent Demo.bag_plain (Some "alice@example.com") None)
            "postal_code" = Some ""
        ∧ UserProfile.default_postcode p' = Some "LS1 1AA"
        ∧ UserProfile.default_town_or_city p' = Some "York"
        ∧ UserProfile.default_street_address2 p' = None.
Proof.
  destruct (profile_update_overwrites_supplied_only (Demo.env Demo.quiet)
              (Demo.event Demo.bag_plain (Some "alice@example.com") None) Demo.world Demo.alice)
    as (p' & Hprof & _ & _ & _ & Hfields & Hpostcode & _);
    [discriminate|reflexivity|reflexivity|].
  exists p'. split; [rewrite Hprof; apply lookup_insert_eq|].
  assert (Hcity : ("city", UserProfile.default_town_or_city) ∈ profile_address_fields)
    by (unfold profile_address_fields; repeat constructor).
  assert (Hline2 : ("line2", UserProfile.default_street_address2) ∈ profile_address_fields)
    by (unfold profile_address_fields; repeat constructor).
  pose proof (Hfields _ _ Hcity) as [Htaken _].
  pose proof (Hfields _ _ Hline2) as [_ Hkept].
  split; [reflexivity|]. split; [by rewrite Hpostcode|]. split.
  - apply Htaken; [reflexivity|discriminate].
  - rewrite Hkept; [reflexivity|by left].
Defined.

(** C6.  The answer of the handler does not depend on the notifier: with
    any template engine, mail backend and sender address in place of those
    of the environment, and so with a notifier that always throws, the
    handler returns what it returns otherwise, and leaves the same tables. *)
Theorem notification_failure_keeps_outcome E render delivered sender event w :
  ((handle_payment_intent_succeeded (with_notifier E render delivered sender) event w).1
   = (handle_payment_intent_succeeded E event w).1
   ∧ same_tables
       (handle_payment_intent_succeeded (with_notifier E render delivered sender) event w).2
       (handle_payment_intent_succeeded E event w).2)
  ∧ (handle_payment_intent_succeeded (with_failing_notifier E) event w).1
    = (handle_payment_intent_succeeded E event w).1.
Proof.
  assert (Hany : ∀ r d s,
    (handle_payment_intent_succeeded (with_notifier E r d s) event w).1
    = (handle_payment_intent_succeeded E event w).1
    ∧ same_tables (handle_payment_intent_succeeded (with_notifier E r d s) event w).2
        (handle_payment_intent_succeeded E event w).2).
  { intros r d s. by apply (handle_same_tables (with_notifier E r d s) E). }
  split; [apply Hany|]. apply Hany.
Qed.

(** C4.  The same event delivered twice: it has no billing e-mail and its
    metadata give an override.  The first delivery creates the order, with
    an empty e-mail, and writes to the override.  The second delivery finds
    that order and calls [_send_confirmation_email] without the override:
    the message goes to the account of the profile. *)
Theorem override_ignored_when_already_recorded :
  Demo.first_delivery.1 = Ok (Created Demo.event_with_override)
  ∧ recipient_list <$> outbox Demo.first_delivery.2 = [["buyer@example.com"]]
  ∧ Order.email <$> (map_to_list (orders Demo.first_delivery.2)).*2 = [""]
  ∧ Demo.second_delivery.1 = Ok (AlreadyRecorded Demo.event_with_override)
  ∧ recipient_list <$> outbox Demo.second_delivery.2
    = [["buyer@example.com"]; ["alice@example.com"]].
Proof. vm_compute. repeat split. Qed.

(** * More of the handler *)

(** ** The order table under the checkout view *)

Lemma commit_mono tbl o k o' :
  tbl !! k = Some o' → commit tbl o !! k = Some o'.
Proof.
  intros Hk. unfold commit. rewrite lookup_insert_ne; [done|].
  intros Heq. pose proof (is_fresh (dom tbl)) as Hfresh.
  rewrite Heq in Hfresh. apply Hfresh, elem_of_dom. by eexists.
Qed.

Lemma tick_mono E t tbl k o :
  tbl !! k = Some o → tick E t tbl !! k = Some o.
Proof.
  unfold tick. generalize (arrivals E t). intros l. revert tbl.
  induction l as [|o' l IH]; intros tbl Hk; simpl; [done|].
  by apply IH, commit_mono.
Qed.

Lemma visible_mono E tbl t n k o :
  tbl !! k = Some o → visible E tbl t n !! k = Some o.
Proof.
  revert tbl t. induction n as [|n IH]; intros tbl t Hk; simpl; [done|].
  by apply IH, tick_mono.
Qed.

(** ** The four ways through the handler *)

Section Paths.
Context (E : Env).

Lemma lookup_world_fields event w k :
  orders (lookup_world E event w k) = visible E (orders w) (clock w) k
  ∧ lineitems (lookup_world E event w k) = lineitems w
  ∧ profiles (lookup_world E event w k) = profiles (after_profile (object event) w)
  ∧ clock (lookup_world E event w k) = clock w + k
  ∧ outbox (lookup_world E event w k) = outbox w.
Proof.
  unfold lookup_world. simpl.
  by rewrite after_profile_orders, after_profile_clock, after_profile_lineitems,
    after_profile_outbox.
Qed.

Lemma after_five_misses_fields event w :
  orders (after_misses E 5 (after_profile (object event) w)) = table_after_misses E w
  ∧ lineitems (after_misses E 5 (after_profile (object event) w)) = lineitems w
  ∧ profiles (after_misses E 5 (after_profile (object event) w))
    = profiles (after_profile (object event) w)
  ∧ clock (after_misses E 5 (after_profile (object event) w)) = clock w + 5
  ∧ outbox (after_misses E 5 (after_profile (object event) w)) = outbox w.
Proof.
  unfold table_after_misses.
  rewrite after_misses_after_profile_orders. cbn [after_misses lineitems profiles clock outbox].
  by rewrite after_profile_clock, after_profile_lineitems, after_profile_outbox.
Qed.

Lemma lookup_phase_at event w k :
  k < 5 →
  (∀ j, j < k → attempt_misses E event w j) →
  find_order E 5 (order_lookup (object event)) (after_profile (object event) w)
  = match lookup_in (order_lookup (object event)) (visible E (orders w) (clock w) k) with
    | Ok r => mret (Some r)
    | Raise e => if is_Order_DoesNotExist e
                 then time_sleep E 1;; find_order E (4 - k) (order_lookup (object event))
                 else raise e
    end (lookup_world E event w k).
Proof.
  intros Hk Hmiss. unfold attempt_misses in Hmiss.
  assert (H5 : find_order E 5 = find_order E (k + S (4 - k))) by (f_equal; lia).
  rewrite H5. clear H5.
  rewrite find_order_misses; last first.
  { intros j Hj. rewrite after_profile_orders, after_profile_clock. by apply Hmiss. }
  rewrite find_order_first. unfold lookup_world.
  by rewrite after_misses_after_profile_orders.
Qed.

Lemma found_path event w k r :
  k < 5 →
  (∀ j, j < k → attempt_misses E event w j) →
  attempt_finds E event w k r →
  handle_payment_intent_succeeded E event w
  = (Ok (AlreadyRecorded event),
     (_send_confirmation_email E r None (lookup_world E event w k)).2).
Proof.
  intros Hk Hmiss Hfind. unfold attempt_finds in Hfind.
  unfold handle_payment_intent_succeeded.
  rewrite run_bind, profile_step_run, run_bind.
  rewrite (lookup_phase_at event w k) by done. rewrite Hfind.
  rewrite run_ret, run_bind.
  by destruct (send_confirmation_email_total E r None (lookup_world E event w k))
    as (w' & -> & _).
Qed.

Lemma raised_path event w k e :
  k < 5 →
  (∀ j, j < k → attempt_misses E event w j) →
  lookup_in (order_lookup (object event)) (visible E (orders w) (clock w) k) = Raise e →
  is_Order_DoesNotExist e = false →
  handle_payment_intent_succeeded E event w = (Raise e, lookup_world E event w k).
Proof.
  intros Hk Hmiss Hraise Hother.
  unfold handle_payment_intent_succeeded.
  rewrite run_bind, profile_step_run, run_bind.
  rewrite (lookup_phase_at event w k) by done. by rewrite Hraise, Hother.
Qed.

Lemma rejection_path event w :
  (∀ j, j < 5 → attempt_misses E event w j) →
  Order_accepted E (candidate E event w).2 = false →
  handle_payment_intent_succeeded E event w
  = (Ok (CreationFailed event DatabaseError),
     after_misses E 5 (after_profile (object event) w)).
Proof.
  intros Hmiss Hrej. unfold attempt_misses in Hmiss.
  unfold handle_payment_intent_succeeded.
  rewrite run_bind, profile_step_run, run_bind.
  assert (H5 : find_order E 5 = find_order E (5 + 0)) by done.
  rewrite H5. clear H5.
  rewrite find_order_misses; last first.
  { intros j Hj. rewrite after_profile_orders, after_profile_clock. by apply Hmiss. }
  rewrite find_order_exhausted, run_bind.
  unfold attempt at 1, Order_objects_create.
  assert (Hrej' : Order_accepted E (new_order (object event)
                    (linked_profile (object event) w)) = false) by exact Hrej.
  by rewrite Hrej'.
Qed.

(** The lookups of the five attempts: a first one that does not miss, or
    none. *)
Lemma lookup_phase event w n :
  (∀ j, j < n → attempt_misses E event w j)
  ∨ ∃ k, k < n ∧ (∀ j, j < k → attempt_misses E event w j)
         ∧ ((∃ r, attempt_finds E event w k r)
            ∨ ∃ e, lookup_in (order_lookup (object event))
                     (visible E (orders w) (clock w) k) = Raise e
                   ∧ is_Order_DoesNotExist e = false).
Proof.
  induction n as [|n IH].
  - left. intros j Hj. lia.
  - destruct IH as [Hmiss|(k & Hk & Hmiss & Hend)].
    + destruct (lookup_in (order_lookup (object event))
                  (visible E (orders w) (clock w) n)) as [r|e] eqn:Hn.
      * right. exists n. split; [lia|]. split; [done|]. left. by exists r.
      * destruct (is_Order_DoesNotExist e) eqn:He.
        -- left. intros j Hj. destruct (decide (j = n)) as [->|Hne].
           ++ unfold attempt_misses. rewrite Hn. by destruct e.
           ++ apply Hmiss. lia.
        -- right. exists n. split; [lia|]. split; [done|]. right. by exists e.
    + right. exists k. split; [lia|]. by split.
Qed.

Lemma handle_run event w :
  ∃ r w', handle_payment_intent_succeeded E event w = (r, w') ∧ Run E event w r w'.
Proof.
  destruct (lookup_phase event w 5) as [Hmiss|(k & Hk & Hmiss & [[r Hfind]|(e & Hraise & He)])].
  - destruct (Order_accepted E (candidate E event w).2) eqn:Hacc.
    + rewrite creation_path by done. fold (header_world E event w).
      destruct (populate E (candidate E event w) (bag (object event))
                  (header_world E event w)) as [[[]|e] wp] eqn:Hpop.
      * eexists _, _. split; [done|]. by apply run_created.
      * eexists _, _. split; [done|]. by apply run_failed.
    + rewrite rejection_path by done.
      eexists _, _. split; [done|]. by apply run_rejected.
  - rewrite (found_path event w k r) by done.
    eexists _, _. split; [done|]. by apply run_found.
  - rewrite (raised_path event w k e) by done.
    eexists _, _. split; [done|]. by apply run_raised.
Qed.

(** What the header and the loop leave, before the answer. *)
Lemma header_world_fields event w :
  orders (header_world E event w)
  = <[(candidate E event w).1 := (candidate E event w).2]> (table_after_misses E w)
  ∧ lineitems (header_world E event w) = lineitems w
  ∧ profiles (header_world E event w) = profiles (after_profile (object event) w)
  ∧ clock (header_world E event w) = clock w + 5
  ∧ outbox (header_world E event w) = outbox w.
Proof.
  destruct (creation_start E event w) as (Ho & Hl & Hp & Hc & _).
  destruct (after_five_misses_fields event w) as (_ & _ & _ & _ & Hb).
  by repeat split.
Qed.
End Paths.

(** ** What every run does and does not do *)

Lemma lookup_in_raises q tbl e :
  lookup_in q tbl = Raise e → e = Order_DoesNotExist ∨ e = Order_MultipleObjectsReturned.
Proof.
  unfold lookup_in. destruct (rows_satisfying q tbl) as [|r [|r' l]]; intros H.
  - left. congruence.
  - discriminate.
  - right. congruence.
Qed.

Lemma filter_all {A} (P : A → Prop) `{∀ x, Decision (P x)} (l : list A) :
  Forall P l → filter P l = l.
Proof.
  induction 1 as [|x l Hx _ IH]; [done|].
  rewrite filter_cons. destruct (decide (P x)); [by rewrite IH|done].
Qed.

(** The tactic that opens a run of the handler into its five paths. *)
Ltac open_run E event w :=
  let r := fresh "r" in
  let w' := fresh "w'" in
  let Hrun := fresh "Hrun" in
  let HR := fresh "HR" in
  destruct (handle_run E event w) as (r & w' & Hrun & HR);
  rewrite Hrun; cbn [fst snd];
  destruct HR as [k found Hk Hmiss Hfind | k e Hk Hmiss Hraise He | Hmiss Hrej
                 | e wp Hmiss Hacc Hpop | wp Hmiss Hacc Hpop].

(** X1.  The handler answers "already recorded", "created" or "creation
    failed", or the lookup's [MultipleObjectsReturned] escapes; no
    exception of the creation path or of the notification does. *)
Theorem handler_answers E event w :
  (handle_payment_intent_succeeded E event w).1 = Ok (AlreadyRecorded event)
  ∨ (handle_payment_intent_succeeded E event w).1 = Ok (Created event)
  ∨ (∃ e, (handle_payment_intent_succeeded E event w).1 = Ok (CreationFailed event e))
  ∨ (handle_payment_intent_succeeded E event w).1 = Raise Order_MultipleObjectsReturned.
Proof.
  open_run E event w.
  - by left.
  - right; right; right.
    destruct (lookup_in_raises _ _ _ Hraise) as [->| ->]; [discriminate|done].
  - right; right; left. by eexists.
  - right; right; left. by eexists.
  - right; left. done.
Qed.

(** X2.  An order that is in the table when the handler starts is in the
    table, unchanged, when it ends: the handler deletes no order but the
    one it has just created. *)
Theorem stored_orders_are_kept E event w pk o :
  orders w !! pk = Some o →
  orders (handle_payment_intent_succeeded E event w).2 !! pk = Some o.
Proof.
  intros Hpk.
  assert (Htbl : table_after_misses E w !! pk = Some o) by by apply visible_mono.
  assert (Hne : (candidate E event w).1 ≠ pk).
  { intros Heq. pose proof (table_after_misses_fresh E w) as Hfresh.
    unfold candidate in Heq. simpl in Heq. rewrite Heq in Hfresh. congruence. }
  open_run E event w.
  - destruct (send_confirmation_email_total E found None (lookup_world E event w k))
      as (ws & -> & Ho & _). cbn [snd]. rewrite Ho.
    destruct (lookup_world_fields E event w k) as (-> & _). by apply visible_mono.
  - destruct (lookup_world_fields E event w k) as (-> & _). by apply visible_mono.
  - by destruct (after_five_misses_fields E event w) as (-> & _).
  - pose proof (populate_keeps E (candidate E event w) (bag (object event))
                  (header_world E event w)) as Hkeep.
    rewrite Hpop in Hkeep. destruct Hkeep as (Ho & _). cbn [snd] in Ho.
    unfold emit, discard, set_lineitems, set_orders. cbn [orders].
    rewrite Ho. destruct (header_world_fields E event w) as (-> & _).
    rewrite lookup_delete_ne by done. by rewrite lookup_insert_ne.
  - pose proof (populate_keeps E (candidate E event w) (bag (object event))
                  (header_world E event w)) as Hkeep.
    rewrite Hpop in Hkeep. destruct Hkeep as (Ho & _). cbn [snd] in Ho.
    destruct (send_confirmation_email_total E (candidate E event w)
                (email_to_send (object event)) wp) as (ws & -> & Ho' & _).
    cbn [snd]. rewrite Ho', Ho. destruct (header_world_fields E event w) as (-> & _).
    by rewrite lookup_insert_ne.
Qed.

Lemma stored_orders_are_kept_witness :
  orders (handle_payment_intent_succeeded (Demo.env Demo.quiet) Cases.plain_event
            Cases.stocked_world).2 !! 0 = Some Cases.earlier_order
  ∧ size (orders (handle_payment_intent_succeeded (Demo.env Demo.quiet) Cases.plain_event
                    Cases.stocked_world).2) = 2.
Proof.
  split; [|vm_compute; reflexivity].
  apply (stored_orders_are_kept (Demo.env Demo.quiet) Cases.plain_event Cases.stocked_world
           0 Cases.earlier_order).
  reflexivity.
Defined.

(** X3.  Whatever the handler answers, it has slept five time units at
    most. *)
Theorem wait_is_bounded E event w :
  ∃ n : nat, (n ≤ 5)%nat ∧ clock (handle_payment_intent_succeeded E event w).2 = clock w + n.
Proof.
  open_run E event w.
  - destruct (send_confirmation_email_total E found None (lookup_world E event w k))
      as (ws & -> & _ & _ & _ & Hc & _). cbn [snd]. rewrite Hc.
    destruct (lookup_world_fields E event w k) as (_ & _ & _ & -> & _).
    exists k. split; [lia|done].
  - destruct (lookup_world_fields E event w k) as (_ & _ & _ & -> & _).
    exists k. split; [lia|done].
  - destruct (after_five_misses_fields E event w) as (_ & _ & _ & -> & _). by exists 5.
  - pose proof (populate_keeps E (candidate E event w) (bag (object event))
                  (header_world E event w)) as Hkeep.
    rewrite Hpop in Hkeep. destruct Hkeep as (_ & _ & Hc & _). cbn [snd] in Hc.
    unfold emit, discard, set_lineitems, set_orders. cbn [clock]. rewrite Hc.
    destruct (header_world_fields E event w) as (_ & _ & _ & -> & _). by exists 5.
  - pose proof (populate_keeps E (candidate E event w) (bag (object event))
                  (header_world E event w)) as Hkeep.
    rewrite Hpop in Hkeep. destruct Hkeep as (_ & _ & Hc & _). cbn [snd] in Hc.
    destruct (send_confirmation_email_total E (candidate E event w)
                (email_to_send (object event)) wp) as (ws & -> & _ & _ & _ & Hc' & _).
    cbn [snd]. rewrite Hc', Hc.
    destruct (header_world_fields E event w) as (_ & _ & _ & -> & _). by exists 5.
Qed.

(** ** The confirmation e-mail *)

Section Confirmation.
Context (E : Env).

(** Either one message is sent or one line is printed. *)
Lemma send_confirmation_email_cases order override w :
  ∃ w', _send_confirmation_email E order override w = (Ok tt, w')
        ∧ ((∃ msg, w' = emit (EPrint msg) w)
           ∨ ∃ subj bd r, w' = with_mail (confirmation E subj bd r) w).
Proof.
  unfold _send_confirmation_email, try_except. rewrite run_bind.
  pose proof (cust_email_pure order override w) as Hpure.
  destruct (cust_email order override w) as [[to|e] w0]; simpl in Hpure; subst w0;
    [|eexists; split; [done|]; left; by eexists].
  rewrite run_bind. unfold lift at 1.
  destruct (render_to_string E subject_template order) as [subj|e];
    [|eexists; split; [done|]; left; by eexists].
  rewrite run_bind. unfold lift at 1.
  destruct (render_to_string E body_template order) as [bd|e];
    [|eexists; split; [done|]; left; by eexists].
  unfold send_mail. fold (confirmation E subj bd to).
  destruct (mail_delivered E (confirmation E subj bd to)).
  - eexists. split; [done|]. right. by eexists _, _, _.
  - eexists. split; [done|]. left. by eexists.
Qed.

(** The run of lines 20-39 once the recipient is known and the templates
    render. *)
Lemma send_confirmation_email_to order override w r subj bd :
  (cust_email order override w).1 = Ok r →
  render_to_string E subject_template order = Ok subj →
  render_to_string E body_template order = Ok bd →
  mail_delivered E (confirmation E subj bd r) = true →
  _send_confirmation_email E order override w
  = (Ok tt, with_mail (confirmation E subj bd r) w).
Proof.
  intros Hto Hsubj Hbd Hsent.
  unfold _send_confirmation_email, try_except. rewrite run_bind.
  pose proof (cust_email_pure order override w) as Hpure.
  destruct (cust_email order override w) as [[to|e] w0]; simpl in *; subst w0;
    [|discriminate].
  injection Hto as ->.
  rewrite run_bind. unfold lift at 1. rewrite Hsubj.
  rewrite run_bind. unfold lift at 1. rewrite Hbd.
  unfold send_mail. fold (confirmation E subj bd r). by rewrite Hsent.
Qed.

Lemma send_confirmation_email_unaddressed order override w e :
  (cust_email order override w).1 = Raise e →
  _send_confirmation_email E order override w
  = (Ok tt, emit (EPrint ("Error sending confirmation email: " +:+ exn_str e)) w).
Proof.
  intros Hto.
  unfold _send_confirmation_email, try_except. rewrite run_bind.
  pose proof (cust_email_pure order override w) as Hpure.
  destruct (cust_email order override w) as [[to|e'] w0]; simpl in *; subst w0;
    [discriminate|].
  by injection Hto as ->.
Qed.
End Confirmation.

(** X4.  [_send_confirmation_email] returns normally whatever the template
    engine and the mail backend do; it leaves the tables and the clock, and
    the outbox either as it was or with one message more, from the shop's
    address to one recipient. *)
Theorem confirmation_never_raises E order override w :
  (_send_confirmation_email E order override w).1 = Ok tt
  ∧ same_tables w (_send_confirmation_email E order override w).2
  ∧ (outbox (_send_confirmation_email E order override w).2 = outbox w
     ∨ ∃ subj bd r, outbox (_send_confirmation_email E order override w).2
                    = outbox w ++ [confirmation E subj bd r]).
Proof.
  destruct (send_confirmation_email_cases E order override w)
    as (w' & -> & [(msg & ->)|(subj & bd & r & ->)]); cbn [fst snd].
  - split; [done|]. split; [done|]. by left.
  - split; [done|]. split; [done|]. right. by eexists _, _, _.
Qed.

(** X5.  When the two templates render and the backend delivers, the
    message goes to the e-mail of the order if it has one; else to the
    override if there is one; else to the account of the order's profile. *)
Theorem confirmation_recipient E order override w subj bd :
  render_to_string E subject_template order = Ok subj →
  render_to_string E body_template order = Ok bd →
  (Order.email order.2 ≠ "" →
   mail_delivered E (confirmation E subj bd (Order.email order.2)) = true →
   _send_confirmation_email E order override w
   = (Ok tt, with_mail (confirmation E subj bd (Order.email order.2)) w))
  ∧ (∀ e, Order.email order.2 = "" → override = Some e → e ≠ "" →
          mail_delivered E (confirmation E subj bd e) = true →
          _send_confirmation_email E order override w
          = (Ok tt, with_mail (confirmation E subj bd e) w))
  ∧ (∀ u p, Order.email order.2 = "" → override = None ∨ override = Some "" →
            Order.user_profile order.2 = Some u → profiles w !! u = Some p →
            mail_delivered E (confirmation E subj bd (User.email (UserProfile.user p))) = true →
            _send_confirmation_email E order override w
            = (Ok tt, with_mail (confirmation E subj bd (User.email (UserProfile.user p))) w)).
Proof.
  intros Hsubj Hbd. split; [|split].
  - intros Hmail Hsent. apply send_confirmation_email_to; try done.
    rewrite cust_email_priority. by rewrite truthy_true.
  - intros e Hmail -> He Hsent. apply send_confirmation_email_to; try done.
    rewrite cust_email_priority, Hmail. cbn [truthy String.eqb negb or_opt].
    by rewrite truthy_true.
  - intros u p Hmail Hover Hu Hp Hsent. apply send_confirmation_email_to; try done.
    rewrite cust_email_priority, Hmail, Hu, Hp.
    by destruct Hover as [->| ->].
Qed.

Lemma confirmation_recipient_witness :
  (* the order has an e-mail: the override is not looked at *)
  outbox (_send_confirmation_email (Demo.env Demo.quiet)
            (Mails.order_of "alice@example.com" (Some "alice")) (Some "buyer@example.com")
            Demo.world).2
  = [confirmation (Demo.env Demo.quiet)
       (Mails.subject_text (Mails.order_of "alice@example.com" (Some "alice")))
       (Mails.body_text (Mails.order_of "alice@example.com" (Some "alice")))
       "alice@example.com"]
  (* no e-mail: the override *)
  ∧ outbox (_send_confirmation_email (Demo.env Demo.quiet)
              (Mails.order_of "" (Some "alice")) (Some "buyer@example.com") Demo.world).2
    = [confirmation (Demo.env Demo.quiet)
         (Mails.subject_text (Mails.order_of "" (Some "alice")))
         (Mails.body_text (Mails.order_of "" (Some "alice")))
         "buyer@example.com"]
  (* no e-mail, no override: the account *)
  ∧ outbox (_send_confirmation_email (Demo.env Demo.quiet)
              (Mails.order_of "" (Some "alice")) None Demo.world).2
    = [confirmation (Demo.env Demo.quiet)
         (Mails.subject_text (Mails.order_of "" (Some "alice")))
         (Mails.body_text (Mails.order_of "" (Some "alice")))
         "alice@example.com"].
Proof.
  split; [|split].
  - destruct (confirmation_recipient (Demo.env Demo.quiet)
                (Mails.order_of "alice@example.com" (Some "alice")) (Some "buyer@example.com")
                Demo.world
                (Mails.subject_text (Mails.order_of "alice@example.com" (Some "alice")))
                (Mails.body_text (Mails.order_of "alice@example.com" (Some "alice"))))
      as (Hown & _ & _); [reflexivity..|].
    rewrite Hown; [reflexivity|discriminate|reflexivity].
  - destruct (confirmation_recipient (Demo.env Demo.quiet)
                (Mails.order_of "" (Some "alice")) (Some "buyer@example.com") Demo.world
                (Mails.subject_text (Mails.order_of "" (Some "alice")))
                (Mails.body_text (Mails.order_of "" (Some "alice"))))
      as (_ & Hover & _); [reflexivity..|].
    rewrite (Hover "buyer@example.com"); [reflexivity..|discriminate|reflexivity].
  - destruct (confirmation_recipient (Demo.env Demo.quiet)
                (Mails.order_of "" (Some "alice")) None Demo.world
                (Mails.subject_text (Mails.order_of "" (Some "alice")))
                (Mails.body_text (Mails.order_of "" (Some "alice"))))
      as (_ & _ & Hacct); [reflexivity..|].
    rewrite (Hacct "alice" Demo.alice); [reflexivity|reflexivity|by left|reflexivity..].
Defined.

(** X6.  An order without e-mail, with no override and no profile to take
    an address from (none linked, or a link to a profile that is gone):
    nothing is sent and nothing is raised; a line is printed. *)
Theorem no_address_no_mail E order override w :
  Order.email order.2 = "" →
  override = None ∨ override = Some "" →
  Order.user_profile order.2 = None
  ∨ (∃ u, Order.user_profile order.2 = Some u ∧ profiles w !! u = None) →
  ∃ msg, _send_confirmation_email E order override w = (Ok tt, emit (EPrint msg) w).
Proof.
  intros Hmail Hover Hprofile.
  assert (Hto : ∃ e, (cust_email order override w).1 = Raise e).
  { rewrite cust_email_priority, Hmail. cbn [truthy String.eqb negb].
    assert (Hnone : or_opt override None = None) by (by destruct Hover as [->| ->]).
    rewrite Hnone. destruct Hprofile as [->|(u & -> & ->)]; by eexists. }
  destruct Hto as [e Hto]. eexists. by apply send_confirmation_email_unaddressed.
Qed.

Lemma no_address_no_mail_witness :
  ∃ msg, _send_confirmation_email (Demo.env Demo.quiet) (Mails.order_of "" None) None Demo.world
         = (Ok tt, emit (EPrint msg) Demo.world).
Proof.
  apply (no_address_no_mail (Demo.env Demo.quiet) (Mails.order_of "" None) None Demo.world);
    [reflexivity|by left|by left].
Defined.

(** X7.  A run of the handler sends one confirmation at most, and none
    when it answers with status 500 or lets an exception escape. *)
Theorem at_most_one_confirmation E event w :
  (outbox (handle_payment_intent_succeeded E event w).2 = outbox w
   ∨ ∃ subj bd r, outbox (handle_payment_intent_succeeded E event w).2
                  = outbox w ++ [confirmation E subj bd r])
  ∧ (∀ response, (handle_payment_intent_succeeded E event w).1 = Ok response →
                 status response = 500 →
                 outbox (handle_payment_intent_succeeded E event w).2 = outbox w)
  ∧ (∀ e, (handle_payment_intent_succeeded E event w).1 = Raise e →
          outbox (handle_payment_intent_succeeded E event w).2 = outbox w).
Proof.
  open_run E event w.
  - destruct (lookup_world_fields E event w k) as (_ & _ & _ & _ & Hb).
    destruct (send_confirmation_email_cases E found None (lookup_world E event w k))
      as (ws & -> & [(msg & ->)|(subj & bd & to & ->)]); cbn [snd];
      unfold with_mail, emit, set_outbox; cbn [outbox]; rewrite Hb.
    + split; [by left|]. split; [done|]. intros e He. discriminate.
    + split; [right; by eexists _, _, _|].
      split; [|intros e He; discriminate].
      intros response Hresp Hstatus. injection Hresp as <-. discriminate.
  - destruct (lookup_world_fields E event w k) as (_ & _ & _ & _ & ->).
    split; [by left|]. by split.
  - destruct (after_five_misses_fields E event w) as (_ & _ & _ & _ & ->).
    split; [by left|]. by split.
  - pose proof (populate_keeps E (candidate E event w) (bag (object event))
                  (header_world E event w)) as Hkeep.
    rewrite Hpop in Hkeep. destruct Hkeep as (_ & _ & _ & Hb & _). cbn [snd] in Hb.
    unfold emit, discard, set_lineitems, set_orders. cbn [outbox]. rewrite Hb.
    destruct (header_world_fields E event w) as (_ & _ & _ & _ & ->).
    split; [by left|]. by split.
  - pose proof (populate_keeps E (candidate E event w) (bag (object event))
                  (header_world E event w)) as Hkeep.
    rewrite Hpop in Hkeep. destruct Hkeep as (_ & _ & _ & Hb & _). cbn [snd] in Hb.
    destruct (header_world_fields E event w) as (_ & _ & _ & _ & Hb').
    destruct (send_confirmation_email_cases E (candidate E event w)
                (email_to_send (object event)) wp)
      as (ws & -> & [(msg & ->)|(subj & bd & to & ->)]); cbn [snd];
      unfold with_mail, emit, set_outbox; cbn [outbox]; rewrite Hb, Hb'.
    + split; [by left|]. split; [done|]. intros e He. discriminate.
    + split; [right; by eexists _, _, _|].
      split; [|intros e He; discriminate].
      intros response Hresp Hstatus. injection Hresp as <-. discriminate.
Qed.

(** X8.  In a database where every line item has its order, the handler
    takes no line item away: when it answers "created" the table has grown
    by line items of the new order, and on every other path the table is
    as it was, also after the delete that undoes a failed creation. *)
Theorem line_items_are_kept E event w :
  line_items_have_orders w →
  lineitems (handle_payment_intent_succeeded E event w).2 = lineitems w
  ∨ ((handle_payment_intent_succeeded E event w).1 = Ok (Created event)
     ∧ ∃ new, lineitems (handle_payment_intent_succeeded E event w).2 = lineitems w ++ new
              ∧ Forall (λ li, OrderLineItem.order li = (candidate E event w).1) new).
Proof.
  intros Hri.
  open_run E event w.
  - left.
    destruct (send_confirmation_email_total E found None (lookup_world E event w k))
      as (ws & -> & _ & Hl & _). cbn [snd]. rewrite Hl.
    by destruct (lookup_world_fields E event w k) as (_ & -> & _).
  - left. by destruct (lookup_world_fields E event w k) as (_ & -> & _).
  - left. by destruct (after_five_misses_fields E event w) as (_ & -> & _).
  - left.
    pose proof (populate_keeps E (candidate E event w) (bag (object event))
                  (header_world E event w)) as Hkeep.
    rewrite Hpop in Hkeep.
    destruct Hkeep as (_ & _ & _ & _ & (new & Hl & Hnew) & _). cbn [snd] in Hl.
    unfold emit, discard, set_lineitems, set_orders. cbn [lineitems].
    rewrite Hl, filter_app, (filter_line_items_of _ new Hnew), app_nil_r.
    destruct (header_world_fields E event w) as (_ & -> & _).
    apply filter_all, Forall_forall. intros li Hli Heq.
    destruct (Hri li Hli) as [o Ho].
    pose proof (visible_mono E (orders w) (clock w) 5 _ _ Ho) as Htbl.
    pose proof (table_after_misses_fresh E w) as Hfresh.
    unfold table_after_misses in Hfresh. unfold candidate, table_after_misses in Heq.
    cbn [fst] in Heq. rewrite Heq in Htbl. congruence.
  - right. split; [done|].
    pose proof (populate_keeps E (candidate E event w) (bag (object event))
                  (header_world E event w)) as Hkeep.
    rewrite Hpop in Hkeep.
    destruct Hkeep as (_ & _ & _ & _ & (new & Hl & Hnew) & _). cbn [snd] in Hl.
    destruct (send_confirmation_email_total E (candidate E event w)
                (email_to_send (object event)) wp) as (ws & -> & _ & Hl' & _).
    cbn [snd]. exists new. rewrite Hl', Hl.
    destruct (header_world_fields E event w) as (_ & -> & _). by split.
Qed.

Lemma line_items_are_kept_witness :
  lineitems (handle_payment_intent_succeeded (Demo.env Demo.quiet)
               (Demo.event Demo.bag_null_quantity (Some "alice@example.com") None)
               Cases.stocked_world).2
  = [Cases.earlier_line_item].
Proof.
  destruct (line_items_are_kept (Demo.env Demo.quiet)
              (Demo.event Demo.bag_null_quantity (Some "alice@example.com") None)
              Cases.stocked_world) as [Hsame|[Hcreated _]].
  - intros li Hli. apply list_elem_of_singleton in Hli as ->. by eexists.
  - exact Hsame.
  - vm_compute in Hcreated. discriminate.
Defined.

(** ** Delivering an event again *)

Lemma iexact_refl s : iexact s s = true.
Proof. unfold iexact. apply String.eqb_refl. Qed.

Lemma option_string_eqb_refl a : option_string_eqb a a = true.
Proof. destruct a as [s|]; [apply String.eqb_refl|done]. Qed.

Lemma new_order_satisfies_lookup intent profile :
  satisfies (order_lookup intent) (new_order intent profile) = true.
Proof.
  unfold satisfies, order_lookup, new_order. simpl.
  rewrite !iexact_refl, String.eqb_refl, option_string_eqb_refl.
  assert (Hq : Qeq_bool (grand_total intent) (grand_total intent) = true)
    by (apply Qeq_bool_iff; reflexivity).
  by rewrite Hq.
Qed.

(** A list without repetition whose only member is [x]. *)
Lemma NoDup_only {A} (l : list A) x :
  NoDup l → (∀ y, y ∈ l ↔ y = x) → l = [x].
Proof.
  intros Hnd Hmem. destruct l as [|a l].
  - exfalso. eapply not_elem_of_nil. apply Hmem. reflexivity.
  - assert (a = x) as -> by (apply Hmem; left).
    destruct l as [|b l]; [done|].
    assert (b = x) as -> by (apply Hmem; right; left).
    apply NoDup_cons in Hnd as [Hnotin _]. exfalso. apply Hnotin. left.
Qed.

Lemma rows_satisfying_elem q tbl k o :
  (k, o) ∈ rows_satisfying q tbl ↔ tbl !! k = Some o ∧ satisfies q o = true.
Proof.
  unfold rows_satisfying. rewrite list_elem_of_In, filter_In, <- list_elem_of_In.
  by rewrite elem_of_map_to_list.
Qed.

Lemma rows_satisfying_NoDup q tbl : NoDup (rows_satisfying q tbl).
Proof.
  unfold rows_satisfying. apply NoDup_ListNoDup, List.NoDup_filter, NoDup_ListNoDup.
  apply NoDup_map_to_list.
Qed.

(** The order just created is what the next lookup finds, when nothing
    else satisfied the lookup. *)
Lemma lookup_in_inserted q tbl pk o :
  tbl !! pk = None →
  lookup_in q tbl = Raise Order_DoesNotExist →
  satisfies q o = true →
  lookup_in q (<[pk := o]> tbl) = Ok (pk, o).
Proof.
  intros Hfree Hmiss Hsat.
  assert (Hnone : rows_satisfying q tbl = []).
  { unfold lookup_in in Hmiss. by destruct (rows_satisfying q tbl) as [|r [|r' l]]. }
  assert (Hone : rows_satisfying q (<[pk := o]> tbl) = [(pk, o)]).
  { apply NoDup_only; [apply rows_satisfying_NoDup|].
    intros [k o']. rewrite rows_satisfying_elem. split.
    - intros [Hk Hsat']. destruct (decide (pk = k)) as [->|Hne].
      + rewrite lookup_insert_eq in Hk. congruence.
      + rewrite lookup_insert_ne in Hk by done.
        assert (Hin : (k, o') ∈ rows_satisfying q tbl) by by apply rows_satisfying_elem.
        rewrite Hnone in Hin. by apply not_elem_of_nil in Hin.
    - intros [= -> ->]. by rewrite lookup_insert_eq. }
  unfold lookup_in. by rewrite Hone.
Qed.

(** X9.  The order that the handler creates for an event satisfies the
    lookup that the handler makes for the same event. *)
Theorem created_order_matches_own_lookup intent profile tbl pk :
  (pk, new_order intent profile) ∈ rows_satisfying (order_lookup intent)
                                    (<[pk := new_order intent profile]> tbl).
Proof.
  apply rows_satisfying_elem. split; [apply lookup_insert_eq|].
  apply new_order_satisfies_lookup.
Qed.

(** X10.  When the handler has created the order of an event and no other
    order under the same key was committed meanwhile, delivering the event
    again is answered "already recorded" at the first lookup, and changes
    neither the order table nor the line-item table. *)
Theorem redelivery_is_already_recorded E event w :
  (∀ j, j < 6 → attempt_misses E event w j) →
  Order_accepted E (candidate E event w).2 = true →
  (populate E (candidate E event w) (bag (object event)) w).1 = Ok tt →
  let w1 := (handle_payment_intent_succeeded E event w).2 in
  (handle_payment_intent_succeeded E event w).1 = Ok (Created event)
  ∧ (handle_payment_intent_succeeded E event w1).1 = Ok (AlreadyRecorded event)
  ∧ orders (handle_payment_intent_succeeded E event w1).2 = orders w1
  ∧ lineitems (handle_payment_intent_succeeded E event w1).2 = lineitems w1
  ∧ clock (handle_payment_intent_succeeded E event w1).2 = clock w1.
Proof.
  intros Hmiss Hacc Hpop. cbv zeta.
  assert (Hmiss5 : ∀ j, j < 5 → attempt_misses E event w j)
    by (intros j Hj; apply Hmiss; lia).
  rewrite creation_path by done. fold (header_world E event w).
  destruct (header_world_fields E event w) as (Ho & Hl & _).
  pose proof (populate_result E event w _ Hl) as Hres. rewrite Hpop in Hres.
  pose proof (populate_keeps E (candidate E event w) (bag (object event))
                (header_world E event w)) as Hkeep.
  destruct (populate E (candidate E event w) (bag (object event)) (header_world E event w))
    as [[[]|e] wp]; cbn [fst snd] in Hres, Hkeep; [clear Hres|discriminate].
  destruct Hkeep as (Ho' & _).
  destruct (send_confirmation_email_total E (candidate E event w)
              (email_to_send (object event)) wp) as (w1 & -> & Ho1 & _).
  cbn [fst snd]. split; [done|].
  assert (Hfind : attempt_finds E event w1 0 (candidate E event w)).
  { unfold attempt_finds. cbn [visible]. rewrite Ho1, Ho', Ho.
    destruct (candidate E event w) as [pk o] eqn:Hcand. cbn [fst snd].
    apply lookup_in_inserted.
    - replace pk with (candidate E event w).1 by (by rewrite Hcand).
      apply table_after_misses_fresh.
    - apply (Hmiss 5). lia.
    - unfold candidate in Hcand. injection Hcand as _ <-.
      apply new_order_satisfies_lookup. }
  rewrite (found_path E event w1 0 (candidate E event w)); [|lia|intros j Hj; lia|done].
  cbn [fst snd]. split; [done|].
  destruct (send_confirmation_email_total E (candidate E event w) None
              (lookup_world E event w1 0)) as (w2 & -> & Ho2 & Hl2 & _ & Hc2 & _).
  cbn [snd]. rewrite Ho2, Hl2, Hc2.
  destruct (lookup_world_fields E event w1 0) as (-> & -> & _ & -> & _).
  cbn [visible]. split; [done|]. split; [done|]. lia.
Qed.

Lemma redelivery_is_already_recorded_witness :
  (handle_payment_intent_succeeded (Demo.env Demo.quiet) Cases.plain_event
     (handle_payment_intent_succeeded (Demo.env Demo.quiet) Cases.plain_event
        Cases.stocked_world).2).1
  = Ok (AlreadyRecorded Cases.plain_event).
Proof.
  apply (redelivery_is_already_recorded (Demo.env Demo.quiet) Cases.plain_event
           Cases.stocked_world).
  - intros j Hj. destruct j as [|[|[|[|[|[|j]]]]]]; [vm_compute; reflexivity..|lia].
  - vm_compute. reflexivity.
  - vm_compute. reflexivity.
Defined.

(** ** The profile without opt-in *)

Lemma after_profile_skipped intent w :
  save_info intent = false ∨ username intent = "AnonymousUser"
  ∨ profiles w !! username intent = None →
  after_profile intent w = w.
Proof.
  intros Hskip. unfold after_profile.
  destruct (String.eqb (username intent) "AnonymousUser") eqn:Hanon; [done|].
  destruct (profiles w !! username intent) as [p|] eqn:Hp; [|done].
  destruct (save_info intent) eqn:Hsave; [|done].
  destruct Hskip as [Hskip|[Hskip|Hskip]]; [done| |done].
  apply String.eqb_neq in Hanon. done.
Qed.

(** X11.  Without the opt-in flag, or for the anonymous user, or for a
    username that has no profile, the handler leaves the profile table as
    it is, and its first effect is the order lookup. *)
Theorem profiles_kept_without_opt_in E event w :
  save_info (object event) = false ∨ username (object event) = "AnonymousUser"
  ∨ profiles w !! username (object event) = None →
  profiles (handle_payment_intent_succeeded E event w).2 = profiles w
  ∧ ∃ tr, trace (handle_payment_intent_succeeded E event w).2
          = trace w ++ EOrderGet (clock w) :: tr.
Proof.
  intros Hskip.
  destruct (handle_after_profile E event w) as [Hprof (tr & Htr)].
  rewrite (after_profile_skipped _ _ Hskip) in Hprof, Htr.
  split; [exact Hprof|]. exists tr. rewrite Htr. simpl. by rewrite <- app_assoc.
Qed.

Lemma profiles_kept_without_opt_in_witness :
  profiles (handle_payment_intent_succeeded (Demo.env Demo.quiet) Guests.guest_event
              Demo.world).2 = profiles Demo.world
  ∧ (handle_payment_intent_succeeded (Demo.env Demo.quiet) Guests.guest_event
       Demo.world).1 = Ok (Created Guests.guest_event).
Proof.
  split; [|vm_compute; reflexivity].
  apply (profiles_kept_without_opt_in (Demo.env Demo.quiet) Guests.guest_event Demo.world).
  right; left. reflexivity.
Defined.

(** ** Empty, null and missing values of the address *)

(** The handler reads of an event its type and what the locals of lines
    50-77 hold. *)
Lemma handle_ext E event1 event2 w :
  type event1 = type event2 →
  username (object event1) = username (object event2) →
  save_info (object event1) = save_info (object event2) →
  (∀ p, update_profile (object event1) p = update_profile (object event2) p) →
  order_lookup (object event1) = order_lookup (object event2) →
  (∀ profile, new_order (object event1) profile = new_order (object event2) profile) →
  bag (object event1) = bag (object event2) →
  email_to_send (object event1) = email_to_send (object event2) →
  handle_payment_intent_succeeded E event1 w = handle_payment_intent_succeeded E event2 w.
Proof.
  intros Hty Huser Hsave Hupd Hq Hnew Hbag Hmail.
  assert (Hlinked : linked_profile (object event1) w = linked_profile (object event2) w)
    by (unfold linked_profile; by rewrite Huser).
  assert (Hafter : after_profile (object event1) w = after_profile (object event2) w).
  { unfold after_profile. rewrite Huser, Hsave.
    destruct (String.eqb _ _); [done|].
    destruct (profiles w !! _) as [p|]; [|done]. by rewrite Hupd. }
  unfold handle_payment_intent_succeeded.
  rewrite !run_bind, !profile_step_run. cbv beta iota.
  by rewrite Hlinked, Hafter, Hq, Hnew, Hbag, Hmail, Hty.
Qed.

Lemma supplied_address_set a intent key :
  supplied_address (set_address a intent) key = mjoin (a !! key).
Proof. reflexivity. Qed.

(** X12.  An address value that is empty, null or missing is the same to
    the handler, and it reads no key of the address but six: two events
    that differ in the shipping address only, and whose six values agree
    once empty ones count as missing, are handled alike. *)
Theorem empty_and_missing_address_values_alike E ty intent a w :
  Forall (λ key, clean (mjoin (a !! key)) = clean (supplied_address intent key))
         address_keys →
  handle_payment_intent_succeeded E {| type := ty; object := set_address a intent |} w
  = handle_payment_intent_succeeded E {| type := ty; object := intent |} w.
Proof.
  intros Hkeys.
  assert (Hget : Forall (λ key, address_get (set_address a intent) key
                                = address_get intent key) address_keys).
  { eapply Forall_impl; [exact Hkeys|]. intros key Hkey. cbv beta in Hkey.
    by rewrite !address_get_supplied, supplied_address_set. }
  unfold address_keys in Hget.
  apply Forall_cons in Hget as [Hcountry Hget]. apply Forall_cons in Hget as [Hpostcode Hget].
  apply Forall_cons in Hget as [Hcity Hget]. apply Forall_cons in Hget as [Hline1 Hget].
  apply Forall_cons in Hget as [Hline2 Hget]. apply Forall_cons in Hget as [Hstate _].
  apply handle_ext; cbn [type object]; try reflexivity.
  - intros p. unfold update_profile.
    by rewrite Hcountry, Hpostcode, Hcity, Hline1, Hline2, Hstate.
  - unfold order_lookup.
    by rewrite Hcountry, Hpostcode, Hcity, Hline1, Hline2, Hstate.
  - intros profile. unfold new_order.
    by rewrite Hcountry, Hpostcode, Hcity, Hline1, Hline2, Hstate.
Qed.

Lemma empty_and_missing_address_values_alike_witness :
  handle_payment_intent_succeeded (Demo.env Demo.quiet)
    {| type := "payment_intent.succeeded";
       object := set_address Guests.other_address
                   (Demo.intent Demo.bag_plain (Some "alice@example.com") None) |}
    Demo.world
  = handle_payment_intent_succeeded (Demo.env Demo.quiet)
      {| type := "payment_intent.succeeded";
         object := Demo.intent Demo.bag_plain (Some "alice@example.com") None |}
      Demo.world.
Proof.
  apply (empty_and_missing_address_values_alike (Demo.env Demo.quiet)
           "payment_intent.succeeded"
           (Demo.intent Demo.bag_plain (Some "alice@example.com") None)
           Guests.other_address Demo.world).
  unfold address_keys. repeat (apply Forall_cons; split; [vm_compute; reflexivity|]).
  by apply Forall_nil.
Defined.

(** ** Snapshots of other shapes *)

Lemma get_raises v k dflt e : get v k dflt = Raise e → e = AttributeError.
Proof. destruct v; simpl; congruence. Qed.

Lemma items_raises v e : items v = Raise e → e = AttributeError.
Proof. destruct v; simpl; congruence. Qed.

Section Shapes.
Context (E : Env).

Lemma line_items_for_found order item_id item_data product w :
  Product_objects_get E item_id = Ok product →
  line_items_for E order (item_id, item_data) w =
  (if isinstance_int item_data then
     OrderLineItem_objects_create E (line_item order product item_data None)
   else
     by_size ← lift (get item_data "items_by_size" (JDict []));
     sizes ← lift (items by_size);
     for_each (λ '(size, quantity),
       OrderLineItem_objects_create E
         {| OrderLineItem.order := order.1; OrderLineItem.product := product;
            OrderLineItem.quantity := quantity;
            OrderLineItem.product_size := Some size |}) sizes) w.
Proof.
  intros Hget. unfold line_items_for, try_except. rewrite run_bind.
  unfold lift at 1. rewrite Hget.
  destruct (isinstance_int item_data).
  - unfold OrderLineItem_objects_create, line_item.
    by destruct (OrderLineItem_accepted E _).
  - assert (Hdb : ∀ (m : M unit) w0, (∀ e w1, m w0 = (Raise e, w1) →
                    is_Product_DoesNotExist e = false) →
                  match m w0 with
                  | (Ok a, w') => (Ok a, w')
                  | (Raise e, w') =>
                      if is_Product_DoesNotExist e
                      then print ("Product not found for id " +:+ item_id
                                    +:+ ", skipping line item.") w'
                      else (Raise e, w')
                  end = m w0).
    { intros m w0 Hm. destruct (m w0) as [[a|e] w1] eqn:Hrun; [done|].
      by rewrite (Hm e w1). }
    apply Hdb. intros e w1.
    rewrite run_bind. unfold lift at 1.
    destruct (get item_data "items_by_size" (JDict [])) as [by_size|e'] eqn:Hby;
      [|apply get_raises in Hby as ->; by intros [= <- _]].
    rewrite run_bind. unfold lift at 1.
    destruct (items by_size) as [sizes|e'] eqn:Hitems;
      [|apply items_raises in Hitems as ->; by intros [= <- _]].
    clear Hby Hitems. revert w.
    induction sizes as [|[size quantity] sizes IH]; intros w; [done|].
    cbn [for_each]. rewrite run_bind. unfold OrderLineItem_objects_create at 1.
    destruct (OrderLineItem_accepted E _); [apply IH|by intros [= <- _]].
Qed.
End Shapes.

(** X13.  A snapshot that is JSON and no object (a list, a number, a
    text, null) makes the creation fail, unlike one that is no JSON at all:
    after the five misses and the header, [items] is called on it, the
    order is deleted and the answer is "creation failed". *)
Theorem snapshot_that_is_no_object_fails E event w v :
  (∀ j, j < 5 → attempt_misses E event w j) →
  Order_accepted E (candidate E event w).2 = true →
  json_loads E (bag (object event)) = Some v →
  (∀ d, v ≠ JDict d) →
  (handle_payment_intent_succeeded E event w).1 = Ok (CreationFailed event AttributeError)
  ∧ orders (handle_payment_intent_succeeded E event w).2 = table_after_misses E w
  ∧ ∃ tr, trace (handle_payment_intent_succeeded E event w).2
          = tr ++ [EOrderCreate (candidate E event w).1; EOrderDelete (candidate E event w).1].
Proof.
  intros Hmiss Hacc Hjson Hshape.
  rewrite creation_path by done. fold (header_world E event w).
  assert (Hrun : populate E (candidate E event w) (bag (object event)) (header_world E event w)
                 = (Raise AttributeError, header_world E event w)).
  { unfold populate, bag_data. rewrite Hjson, run_bind. unfold lift.
    destruct v; try done. by destruct (Hshape d). }
  rewrite Hrun. cbn [fst snd]. split; [done|].
  unfold emit at 1, discard, set_lineitems, set_orders. cbn [orders trace].
  destruct (header_world_fields E event w) as (-> & _).
  split; [apply delete_insert_id, table_after_misses_fresh|].
  unfold header_world, emit. cbn [trace].
  eexists. by rewrite <- app_assoc.
Qed.

Lemma snapshot_that_is_no_object_fails_witness :
  (handle_payment_intent_succeeded (Demo.env Demo.quiet)
     (Demo.event Guests.bag_list (Some "alice@example.com") None) Demo.world).1
  = Ok (CreationFailed (Demo.event Guests.bag_list (Some "alice@example.com") None)
          AttributeError)
  ∧ orders (handle_payment_intent_succeeded (Demo.env Demo.quiet)
              (Demo.event Guests.bag_list (Some "alice@example.com") None) Demo.world).2 = ∅.
Proof.
  destruct (snapshot_that_is_no_object_fails (Demo.env Demo.quiet)
              (Demo.event Guests.bag_list (Some "alice@example.com") None) Demo.world
              (JList [JInt 12; JInt 3])) as (Hres & Ho & _).
  - intros j Hj. destruct j as [|[|[|[|[|j]]]]]; [vm_compute; reflexivity..|lia].
  - vm_compute. reflexivity.
  - vm_compute. reflexivity.
  - discriminate.
  - split; [exact Hres|]. rewrite Ho. reflexivity.
Defined.

(** X14.  For an entry whose product exists: a boolean value is taken for
    a quantity, as an integer is, and one line item is written with it; a
    value that is neither an integer, a boolean nor a dict (null, a float,
    a text, a list) raises [AttributeError] and writes nothing. *)
Theorem entry_values_of_other_types E order item_id product w :
  Product_objects_get E item_id = Ok product →
  (∀ b, OrderLineItem_accepted E (line_item order product (JBool b) None) = true →
        line_items_for E order (item_id, JBool b) w
        = (Ok tt, with_line_items [line_item order product (JBool b) None] w))
  ∧ (∀ v, isinstance_int v = false → (∀ d, v ≠ JDict d) →
          line_items_for E order (item_id, v) w = (Raise AttributeError, w)).
Proof.
  intros Hget. split.
  - intros b Hacc. rewrite (line_items_for_found E _ _ _ product) by done.
    cbn [isinstance_int]. by apply create_line_item_run.
  - intros v Hint Hshape. rewrite (line_items_for_found E _ _ _ product) by done.
    rewrite Hint, run_bind. unfold lift.
    destruct v; try done. by destruct (Hshape d).
Qed.

Lemma entry_values_of_other_types_witness :
  lineitems (line_items_for (Demo.env Demo.quiet) (Mails.order_of "" None)
               ("12", JBool true) Demo.world).2
  = [line_item (Mails.order_of "" None) Demo.jacket (JBool true) None]
  ∧ line_items_for (Demo.env Demo.quiet) (Mails.order_of "" None) ("12", JStr "3") Demo.world
    = (Raise AttributeError, Demo.world).
Proof.
  destruct (entry_values_of_other_types (Demo.env Demo.quiet) (Mails.order_of "" None)
              "12" Demo.jacket Demo.world) as [Hbool Hother]; [reflexivity|].
  split.
  - rewrite (Hbool true); reflexivity.
  - apply Hother; [reflexivity|discriminate].
Defined.

(** X15.  For an entry whose product exists and whose value is a dict: one
    without the key [items_by_size] writes no line item and raises
    nothing; one whose [items_by_size] is no dict raises
    [AttributeError]. *)
Theorem entry_without_sizes E order item_id product w d :
  Product_objects_get E item_id = Ok product →
  (assoc "items_by_size" d = None →
   line_items_for E order (item_id, JDict d) w = (Ok tt, w))
  ∧ (∀ v, assoc "items_by_size" d = Some v → (∀ sizes, v ≠ JDict sizes) →
          line_items_for E order (item_id, JDict d) w = (Raise AttributeError, w)).
Proof.
  intros Hget. split.
  - intros Hkey. rewrite (line_items_for_found E _ _ _ product) by done.
    cbn [isinstance_int]. rewrite run_bind. unfold lift at 1. cbn [get]. by rewrite Hkey.
  - intros v Hkey Hshape. rewrite (line_items_for_found E _ _ _ product) by done.
    cbn [isinstance_int]. rewrite run_bind. unfold lift at 1. cbn [get]. rewrite Hkey.
    cbn [default from_option id]. rewrite run_bind. unfold lift.
    destruct v; try done. by destruct (Hshape d0).
Qed.

Lemma entry_without_sizes_witness :
  line_items_for (Demo.env Demo.quiet) (Mails.order_of "" None)
    ("12", JDict [("quantity", JInt 3)]) Demo.world = (Ok tt, Demo.world)
  ∧ line_items_for (Demo.env Demo.quiet) (Mails.order_of "" None)
      ("12", JDict [("items_by_size", JInt 3)]) Demo.world = (Raise AttributeError, Demo.world).
Proof.
  split.
  - destruct (entry_without_sizes (Demo.env Demo.quiet) (Mails.order_of "" None)
                "12" Demo.jacket Demo.world [("quantity", JInt 3)]) as [Hnone _];
      [reflexivity|]. by apply Hnone.
  - destruct (entry_without_sizes (Demo.env Demo.quiet) (Mails.order_of "" None)
                "12" Demo.jacket Demo.world [("items_by_size", JInt 3)]) as [_ Hbad];
      [reflexivity|]. apply (Hbad (JInt 3)); [reflexivity|discriminate].
Defined.

(** X16.  When the five lookups have missed and the database refuses the
    header, the handler answers "creation failed" and deletes nothing: the
    tables are those after the fifth sleep, and the trace ends with that
    sleep. *)
Theorem refused_header_deletes_nothing E event w :
  (∀ j, j < 5 → attempt_misses E event w j) →
  Order_accepted E (candidate E event w).2 = false →
  (handle_payment_intent_succeeded E event w).1 = Ok (CreationFailed event DatabaseError)
  ∧ orders (handle_payment_intent_succeeded E event w).2 = table_after_misses E w
  ∧ lineitems (handle_payment_intent_succeeded E event w).2 = lineitems w
  ∧ outbox (handle_payment_intent_succeeded E event w).2 = outbox w
  ∧ trace (handle_payment_intent_succeeded E event w).2
    = trace (after_profile (object event) w) ++ misses (clock w) 5.
Proof.
  intros Hmiss Hrej. rewrite rejection_path by done. cbn [fst snd].
  destruct (after_five_misses_fields E event w) as (-> & -> & _ & _ & ->).
  repeat split; try done. cbn [after_misses trace]. by rewrite after_profile_clock.
Qed.

Lemma refused_header_deletes_nothing_witness :
  (handle_payment_intent_succeeded (Demo.env Demo.quiet) Guests.event_without_id
     Cases.stocked_world).1
  = Ok (CreationFailed Guests.event_without_id DatabaseError)
  ∧ size (orders (handle_payment_intent_succeeded (Demo.env Demo.quiet)
                    Guests.event_without_id Cases.stocked_world).2) = 1.
Proof.
  destruct (refused_header_deletes_nothing (Demo.env Demo.quiet) Guests.event_without_id
              Cases.stocked_world) as (Hres & Ho & _).
  - intros j Hj. destruct j as [|[|[|[|[|j]]]]]; [vm_compute; reflexivity..|lia].
  - vm_compute. reflexivity.
  - split; [exact Hres|]. rewrite Ho. reflexivity.
Defined.

(** ** The profile when an event comes twice *)

Lemma or_opt_idem v old : or_opt v (or_opt v old) = or_opt v old.
Proof. destruct v as [s|]; [|done]. unfold or_opt. by destruct (truthy s). Qed.

Lemma update_profile_idem intent p :
  update_profile intent (update_profile intent p) = update_profile intent p.
Proof. unfold update_profile. simpl. by rewrite !or_opt_idem. Qed.

Lemma handle_profiles E event w :
  profiles (handle_payment_intent_succeeded E event w).2
  = profiles (after_profile (object event) w).
Proof. by destruct (handle_after_profile E event w) as [-> _]. Qed.

(** The profile step on a profile table that the same step has left. *)
Lemma after_profile_again intent w w1 :
  profiles w1 = profiles (after_profile intent w) →
  profiles (after_profile intent w1) = profiles w1.
Proof.
  intros Hw1. unfold after_profile in *.
  destruct (String.eqb (username intent) "AnonymousUser"); [done|].
  destruct (profiles w !! username intent) as [p|] eqn:Hp.
  - destruct (save_info intent) eqn:Hsave.
    + simpl in Hw1.
      assert (Hp1 : profiles w1 !! username intent = Some (update_profile intent p))
        by (rewrite Hw1; apply lookup_insert_eq).
      rewrite Hp1. simpl. rewrite update_profile_idem. by apply insert_id.
    + rewrite Hw1, Hp. done.
  - by rewrite Hw1, Hp.
Qed.

(** X17.  Delivering an event again leaves the profile table as the first
    delivery left it: the update takes the same values again. *)
Theorem redelivery_keeps_profiles E E' event w :
  profiles (handle_payment_intent_succeeded E' event
              (handle_payment_intent_succeeded E event w).2).2
  = profiles (handle_payment_intent_succeeded E event w).2.
Proof.
  rewrite (handle_profiles E'). apply (after_profile_again _ w), handle_profiles.
Qed.

(** ** What the status of the answer tells *)

Lemma lookup_in_Ok q tbl pk o :
  lookup_in q tbl = Ok (pk, o) → tbl !! pk = Some o ∧ satisfies q o = true.
Proof.
  intros Hfind. apply rows_satisfying_elem. unfold lookup_in in Hfind.
  destruct (rows_satisfying q tbl) as [|r [|r' l]]; try discriminate.
  injection Hfind as ->. left.
Qed.

(** X18.  An answer with status 200 means that the order table holds an
    order under the composite key of the event; an answer with status 500
    means that the table holds what the checkout view has committed and
    nothing of the handler's. *)
Theorem status_tells_what_is_stored E event w response :
  (handle_payment_intent_succeeded E event w).1 = Ok response →
  (status response = 200 →
   ∃ pk o, orders (handle_payment_intent_succeeded E event w).2 !! pk = Some o
           ∧ satisfies (order_lookup (object event)) o = true)
  ∧ (status response = 500 →
     orders (handle_payment_intent_succeeded E event w).2 = table_after_misses E w)
  ∧ (status response = 200 ∨ status response = 500).
Proof.
  open_run E event w; intros Hresp; try discriminate; injection Hresp as <-.
  - split; [|split; [intros Hs; discriminate|by left]]. intros _.
    destruct found as [pk o]. unfold attempt_finds in Hfind.
    apply lookup_in_Ok in Hfind as [Hpk Hsat]. exists pk, o. split; [|done].
    destruct (send_confirmation_email_total E (pk, o) None (lookup_world E event w k))
      as (ws & -> & Ho & _). cbn [snd]. rewrite Ho.
    by destruct (lookup_world_fields E event w k) as (-> & _).
  - split; [intros Hs; discriminate|]. split; [|by right]. intros _.
    by destruct (after_five_misses_fields E event w) as (-> & _).
  - split; [intros Hs; discriminate|]. split; [|by right]. intros _.
    pose proof (populate_keeps E (candidate E event w) (bag (object event))
                  (header_world E event w)) as Hkeep.
    rewrite Hpop in Hkeep. destruct Hkeep as (Ho & _). cbn [snd] in Ho.
    unfold emit, discard, set_lineitems, set_orders. cbn [orders]. rewrite Ho.
    destruct (header_world_fields E event w) as (-> & _).
    apply delete_insert_id, table_after_misses_fresh.
  - split; [|split; [intros Hs; discriminate|by left]]. intros _.
    pose proof (populate_keeps E (candidate E event w) (bag (object event))
                  (header_world E event w)) as Hkeep.
    rewrite Hpop in Hkeep. destruct Hkeep as (Ho & _). cbn [snd] in Ho.
    destruct (send_confirmation_email_total E (candidate E event w)
                (email_to_send (object event)) wp) as (ws & -> & Ho' & _).
    cbn [snd]. exists (candidate E event w).1, (candidate E event w).2.
    rewrite Ho', Ho. destruct (header_world_fields E event w) as (-> & _).
    split; [apply lookup_insert_eq|]. apply new_order_satisfies_lookup.
Qed.

Lemma status_tells_what_is_stored_witness :
  ∃ pk o, orders (handle_payment_intent_succeeded (Demo.env Demo.quiet) Cases.plain_event
                    Cases.stocked_world).2 !! pk = Some o
          ∧ satisfies (order_lookup (object Cases.plain_event)) o = true.
Proof.
  destruct (status_tells_what_is_stored (Demo.env Demo.quiet) Cases.plain_event
              Cases.stocked_world (Created Cases.plain_event)) as (Hok & _).
  - vm_compute. reflexivity.
  - apply Hok. reflexivity.
Defined.

(** * Orders found twice, ids that are no numbers, and the line items of a snapshot *)


(** C9, as stated, fails for an id that no catalogue item has and that is
    no number: the catalogue raises [ValueError], which line 170 does not
    catch; the order is deleted and the answer is "creation failed". *)
Lemma unknown_text_id_fails_creation :
  (∀ j, j < 5 → attempt_misses (Demo.env Demo.quiet) Carts.text_id_event Demo.world j)
  ∧ json_loads (Demo.env Demo.quiet) (bag (object Carts.text_id_event))
    = Some (JDict [("abc", JInt 1)])
  ∧ Forall (λ p, Product.id p ≠ "abc") Demo.catalogue
  ∧ (handle_payment_intent_succeeded (Demo.env Demo.quiet) Carts.text_id_event
       Demo.world).1
    = Ok (CreationFailed Carts.text_id_event ValueError)
  ∧ (handle_payment_intent_succeeded (Demo.env Demo.quiet) Carts.text_id_event
       Demo.world).1
    ≠ Ok (Created Carts.text_id_event)
  ∧ orders (handle_payment_intent_succeeded (Demo.env Demo.quiet) Carts.text_id_event
              Demo.world).2 = ∅.
Proof.
  split.
  { intros j Hj. destruct j as [|[|[|[|[|j]]]]]; [vm_compute; reflexivity..|lia]. }
  split; [vm_compute; reflexivity|].
  split; [repeat constructor; discriminate|].
  split; [vm_compute; reflexivity|]. split; [vm_compute; discriminate|].
  vm_compute. reflexivity.
Qed.

(** ** The loop against the line items of the snapshot *)

Section Snapshot.
Context (E : Env).

Lemma line_items_for_writes order entry w :
  entry_taken E order entry →
  (line_items_for E order entry w).1 = Ok tt
  ∧ lineitems (line_items_for E order entry w).2
    = lineitems w ++ entry_line_items E order entry.
Proof.
  destruct entry as [item_id item_data].
  unfold entry_taken, entry_line_items. cbn [fst snd].
  destruct (Product_objects_get E item_id) as [product|e] eqn:Hget.
  - destruct item_data as [| |n| | | |d]; try done.
    + intros Hacc.
      assert (Hrun : line_items_for E order (item_id, JInt n) w
                     = (Ok tt, with_line_items [line_item order product (JInt n) None] w)).
      { rewrite (line_items_for_found E order item_id (JInt n) product) by done.
        cbn [isinstance_int]. by apply create_line_item_run. }
      by rewrite Hrun.
    + destruct (assoc "items_by_size" d) as [v|] eqn:Hsizes.
      * destruct v as [| | | | | |sizes]; try done. intros Hacc.
        assert (Hrun : line_items_for E order (item_id, JDict d) w
                       = (Ok tt, with_line_items (sized_line_item order product <$> sizes) w)).
        { rewrite (line_items_for_found E order item_id (JDict d) product) by done.
          cbn [isinstance_int]. rewrite run_bind. unfold lift at 1. cbn [get].
          rewrite Hsizes. cbn [default from_option id].
          rewrite run_bind. unfold lift at 1. cbn [items].
          by apply for_each_size_run. }
        by rewrite Hrun.
      * intros _.
        assert (Hrun : line_items_for E order (item_id, JDict d) w = (Ok tt, w)).
        { rewrite (line_items_for_found E order item_id (JDict d) product) by done.
          cbn [isinstance_int]. rewrite run_bind. unfold lift at 1. cbn [get].
          rewrite Hsizes. cbn [default from_option id].
          rewrite run_bind. unfold lift at 1. cbn [items]. done. }
        rewrite Hrun. cbn [fst snd]. by rewrite app_nil_r.
  - intros ->. rewrite line_items_for_skip by done. cbn [fst snd].
    unfold emit. cbn [lineitems]. by rewrite app_nil_r.
Qed.

Lemma for_each_writes order entries : ∀ w,
  Forall (entry_taken E order) entries →
  (for_each (line_items_for E order) entries w).1 = Ok tt
  ∧ lineitems (for_each (line_items_for E order) entries w).2
    = lineitems w ++ snapshot_line_items E order entries.
Proof.
  unfold snapshot_line_items.
  induction entries as [|entry entries IH]; intros w Htaken.
  - cbn. by rewrite app_nil_r.
  - apply Forall_cons in Htaken as [Hentry Htaken].
    cbn [for_each]. rewrite run_bind.
    destruct (line_items_for_writes order entry w Hentry) as [Hres Hitems].
    destruct (line_items_for E order entry w) as [[[]|e] w1]; cbn [fst snd] in *;
      [|discriminate].
    destruct (IH w1 Htaken) as [Hres' Hitems'].
    split; [exact Hres'|]. rewrite Hitems', Hitems. cbn. by rewrite <- app_assoc.
Qed.
End Snapshot.

(** C7.  When the five lookups have missed, the database takes the header,
    the snapshot decodes to an object and the creation path takes each of
    its entries, the handler answers "created" and the line items it has
    written are those of the snapshot, entry by entry: for an entry of an
    existing catalogue item, one line item with the quantity and no size
    when the value is a plain integer, and one line item for each pair of
    a size and a quantity when the value is a mapping by size. *)
Theorem snapshot_line_items_written E event w entries :
  (∀ j, j < 5 → attempt_misses E event w j) →
  Order_accepted E (candidate E event w).2 = true →
  json_loads E (bag (object event)) = Some (JDict entries) →
  Forall (entry_taken E (candidate E event w)) entries →
  (∃ w', handle_payment_intent_succeeded E event w = (Ok (Created event), w')
         ∧ lineitems w'
           = lineitems w ++ concat (entry_line_items E (candidate E event w) <$> entries))
  ∧ ∀ item_id product,
      Product_objects_get E item_id = Ok product →
      (∀ n, entry_line_items E (candidate E event w) (item_id, JInt n)
            = [{| OrderLineItem.order := (candidate E event w).1;
                  OrderLineItem.product := product;
                  OrderLineItem.quantity := JInt n;
                  OrderLineItem.product_size := None |}])
      ∧ (∀ d sizes, assoc "items_by_size" d = Some (JDict sizes) →
            entry_line_items E (candidate E event w) (item_id, JDict d)
            = (λ pair, {| OrderLineItem.order := (candidate E event w).1;
                          OrderLineItem.product := product;
                          OrderLineItem.quantity := pair.2;
                          OrderLineItem.product_size := Some pair.1 |}) <$> sizes).
Proof.
  intros Hmiss Hacc Hjson Htaken. split.
  - rewrite creation_path by done. fold (header_world E event w).
    destruct (header_world_fields E event w) as (_ & Hl & _).
    assert (Hrun : populate E (candidate E event w) (bag (object event))
                     (header_world E event w)
                   = for_each (line_items_for E (candidate E event w)) entries
                       (header_world E event w)).
    { unfold populate, bag_data. by rewrite Hjson. }
    destruct (for_each_writes E (candidate E event w) entries (header_world E event w)
                Htaken) as [Hres Hitems].
    rewrite <- Hrun in Hres, Hitems.
    destruct (populate E (candidate E event w) (bag (object event))
                (header_world E event w)) as [[[]|e] wp]; cbn [fst snd] in Hres, Hitems;
      [|discriminate].
    destruct (send_confirmation_email_total E (candidate E event w)
                (email_to_send (object event)) wp) as (w' & -> & _ & Hl' & _).
    exists w'. split; [done|]. by rewrite Hl', Hitems, Hl.
  - intros item_id product Hget. unfold entry_line_items. cbn [fst snd].
    rewrite Hget. split; [done|]. intros d sizes Hsizes. by rewrite Hsizes.
Qed.

Lemma snapshot_line_items_written_witness :
  (∃ w', handle_payment_intent_succeeded (Demo.env Demo.quiet) Cases.plain_event Demo.world
         = (Ok (Created Cases.plain_event), w')
         ∧ lineitems w'
           = [{| OrderLineItem.order := 0; OrderLineItem.product := Demo.jacket;
                 OrderLineItem.quantity := JInt 3; OrderLineItem.product_size := None |}])
  ∧ (∃ w', handle_payment_intent_succeeded (Demo.env Demo.quiet) Carts.sizes_event Demo.world
           = (Ok (Created Carts.sizes_event), w')
           ∧ lineitems w'
             = [{| OrderLineItem.order := 0; OrderLineItem.product := Demo.jacket;
                   OrderLineItem.quantity := JInt 2; OrderLineItem.product_size := Some "M" |};
                {| OrderLineItem.order := 0; OrderLineItem.product := Demo.jacket;
                   OrderLineItem.quantity := JInt 1; OrderLineItem.product_size := Some "L" |}])
  ∧ ∃ w', handle_payment_intent_succeeded (Demo.env Demo.quiet) Carts.mixed_event Demo.world
          = (Ok (Created Carts.mixed_event), w')
          ∧ lineitems w'
            = [{| OrderLineItem.order := 0; OrderLineItem.product := Demo.jacket;
                  OrderLineItem.quantity := JInt 2; OrderLineItem.product_size := Some "M" |};
               {| OrderLineItem.order := 0; OrderLineItem.product := Demo.jacket;
                  OrderLineItem.quantity := JInt 1; OrderLineItem.product_size := Some "L" |};
               {| OrderLineItem.order := 0; OrderLineItem.product := Demo.mug;
                  OrderLineItem.quantity := JInt 3; OrderLineItem.product_size := None |}].
Proof.
  split; [|split].
  - destruct (snapshot_line_items_written (Demo.env Demo.quiet) Cases.plain_event Demo.world
                [("12", JInt 3)]) as [(w' & Hrun & Hitems) _].
    + intros j Hj. destruct j as [|[|[|[|[|j]]]]]; [vm_compute; reflexivity..|lia].
    + vm_compute. reflexivity.
    + vm_compute. reflexivity.
    + repeat (apply Forall_cons; split); try (by apply Forall_nil); reflexivity.
    + exists w'. split; [exact Hrun|]. rewrite Hitems. reflexivity.
  - destruct (snapshot_line_items_written (Demo.env Demo.quiet) Carts.sizes_event Demo.world
                [("12", JDict [("items_by_size", JDict [("M", JInt 2); ("L", JInt 1)])])])
      as [(w' & Hrun & Hitems) _].
    + intros j Hj. destruct j as [|[|[|[|[|j]]]]]; [vm_compute; reflexivity..|lia].
    + vm_compute. reflexivity.
    + vm_compute. reflexivity.
    + repeat (apply Forall_cons; split); try (by apply Forall_nil); reflexivity.
    + exists w'. split; [exact Hrun|]. rewrite Hitems. reflexivity.
  - destruct (snapshot_line_items_written (Demo.env Demo.quiet) Carts.mixed_event Demo.world
                [("12", JDict [("items_by_size", JDict [("M", JInt 2); ("L", JInt 1)])]);
                 ("7", JInt 3)])
      as [(w' & Hrun & Hitems) _].
    + intros j Hj. destruct j as [|[|[|[|[|j]]]]]; [vm_compute; reflexivity..|lia].
    + vm_compute. reflexivity.
    + vm_compute. reflexivity.
    + repeat (apply Forall_cons; split); try (by apply Forall_nil); reflexivity.
    + exists w'. split; [exact Hrun|]. rewrite Hitems. reflexivity.
Defined.
